(** * Group-membership pipeline of the course-management backend

    A shallow embedding of the TypeORM repositories and of the
    [UserGroupRelationSubscriber], with the relational store made explicit:
    every repository method is a function from the store to an outcome
    (a resolved value or a rejection) paired with the store it leaves. *)

From Stdlib Require Import String Ascii List Bool Arith Lia DecimalString DecimalNat.
Import ListNotations.
Open Scope string_scope.
Open Scope list_scope.

Set Implicit Arguments.

(** ** Values of the source language *)

(** An optional property of a DTO: missing ([undefined]), [null], or set. *)
Inductive JsOpt (A : Type) : Type :=
| undefined
| null
| value (a : A).
Arguments undefined {A}.
Arguments null {A}.

(** [a ?? b]: the left operand unless it is nullish. *)
Definition nullish {A : Type} (a : JsOpt A) (b : A) : A :=
  match a with
  | value x => x
  | _ => b
  end.

(** [s?.length > 0] for an optional string: [undefined > 0] is [false]. *)
Definition length_gt_0 (s : JsOpt string) : bool :=
  match s with
  | value x => Nat.ltb 0 (String.length x)
  | _ => false
  end.

(** Truthiness of an optional string: nullish values and [""] are falsy. *)
Definition truthy (s : JsOpt string) : bool :=
  match s with
  | value x => negb (x =? "")
  | _ => false
  end.

(** [s === ""] *)
Definition isEmptyString (s : JsOpt string) : bool :=
  match s with
  | value x => x =? ""
  | _ => false
  end.

(** Truthiness of an optional boolean. *)
Definition truthy_bool (b : JsOpt bool) : bool :=
  match b with
  | value x => x
  | _ => false
  end.

(** [n.toString()] for a non-negative integer. *)
Definition toString (n : nat) : string :=
  NilZero.string_of_uint (Nat.to_uint n).

(** An object seen as its own enumerable properties. *)
Definition JsObject : Type := list (string * string).

(** [Object.assign(target, source)]: the properties of [source] override
    those of [target]. *)
Definition Object_assign (target source : JsObject) : JsObject :=
  source ++ filter (fun kv => negb (existsb (fun kv' => fst kv' =? fst kv) source)) target.

(** ** Entities *)

Definition CourseId : Type := string.
Definition GroupId : Type := string.
Definition UserId : Type := string.
Definition AssignmentId : Type := string.

Inductive CourseRole : Type := LECTURER | TUTOR | STUDENT.
Inductive UserRoles : Type := ROLE_LECTURER | ROLE_TUTOR | ROLE_STUDENT.

Record ParticipantEntity : Type := mkParticipant {
  participant_id : nat;
  participant_courseId : CourseId;
  participant_userId : UserId;
  participant_role : CourseRole
}.

Record AdmissionCriteriaDto : Type := mkAdmissionCriteriaDto {
  criteria : JsOpt (list JsObject)
}.

Record AdmissionCriteria : Type := mkAdmissionCriteria {
  admissionCriteria : AdmissionCriteriaDto
}.

Record CourseConfig : Type := mkCourseConfig {
  config_password : option string;
  config_subscriptionUrl : JsOpt string;
  config_groupSettings : JsObject;
  config_assignmentTemplates : JsOpt (list JsObject);
  config_admissionCriteria : option AdmissionCriteria
}.

Record Course : Type := mkCourse {
  course_id : CourseId;
  course_shortname : string;
  course_semester : string;
  course_title : string;
  course_link : JsOpt string;
  course_isClosed : bool;
  course_config : option CourseConfig;
  course_participants : list (UserId * CourseRole)
}.

Record Group : Type := mkGroup {
  group_id : GroupId;
  group_courseId : CourseId;
  group_name : string;
  group_password : option string;
  group_isClosed : bool;
  group_createdAt : nat
}.

Record UserGroupRelation : Type := mkUserGroupRelation {
  ugr_id : nat;
  ugr_userId : UserId;
  ugr_groupId : GroupId;
  ugr_participantId : nat
}.

Record CourseUserRelation : Type := mkCourseUserRelation {
  cur_courseId : CourseId;
  cur_userId : UserId;
  cur_role : UserRoles
}.

Record GroupRegistrationRelation : Type := mkGroupRegistrationRelation {
  grr_assignmentRegistrationId : nat;
  grr_participantId : nat
}.

Record AssignmentRegistration : Type := mkAssignmentRegistration {
  reg_id : nat;
  reg_assignmentId : AssignmentId;
  reg_groupId : option GroupId;
  reg_userId : option UserId;
  reg_groupRelations : list GroupRegistrationRelation
}.

Inductive EventType : Type := INSERT | UPDATE | REMOVE.
Inductive AffectedObject : Type := USER_GROUP_RELATION.

Record UpdateMessage : Type := mkUpdateMessage {
  msg_type : EventType;
  msg_affectedObject : AffectedObject;
  msg_courseId : CourseId;
  msg_entityId : UserId;
  msg_entityId_relation : GroupId
}.

(** ** The store *)

Record Db : Type := mkDb {
  courses : list Course;
  participants : list ParticipantEntity;
  groups : list Group;
  userGroupRelations : list UserGroupRelation;
  courseUserRelations : list CourseUserRelation;
  registrations : list AssignmentRegistration;
  updateMessages : list UpdateMessage;
  nextId : nat
}.

Definition with_courses (cs : list Course) (db : Db) : Db :=
  mkDb cs (participants db) (groups db) (userGroupRelations db)
       (courseUserRelations db) (registrations db) (updateMessages db) (nextId db).

Definition with_groups (gs : list Group) (db : Db) : Db :=
  mkDb (courses db) (participants db) gs (userGroupRelations db)
       (courseUserRelations db) (registrations db) (updateMessages db) (nextId db).

Definition with_userGroupRelations (rs : list UserGroupRelation) (db : Db) : Db :=
  mkDb (courses db) (participants db) (groups db) rs
       (courseUserRelations db) (registrations db) (updateMessages db) (nextId db).

Definition with_courseUserRelations (rs : list CourseUserRelation) (db : Db) : Db :=
  mkDb (courses db) (participants db) (groups db) (userGroupRelations db)
       rs (registrations db) (updateMessages db) (nextId db).

Definition with_registrations (rs : list AssignmentRegistration) (db : Db) : Db :=
  mkDb (courses db) (participants db) (groups db) (userGroupRelations db)
       (courseUserRelations db) rs (updateMessages db) (nextId db).

Definition with_updateMessages (ms : list UpdateMessage) (db : Db) : Db :=
  mkDb (courses db) (participants db) (groups db) (userGroupRelations db)
       (courseUserRelations db) (registrations db) ms (nextId db).

Definition with_nextId (n : nat) (db : Db) : Db :=
  mkDb (courses db) (participants db) (groups db) (userGroupRelations db)
       (courseUserRelations db) (registrations db) (updateMessages db) n.

Definition emptyDb : Db := mkDb [] [] [] [] [] [] [] 0.

(** ** Promises over the store *)

Inductive Exception : Type :=
| EntityNotFoundError
| ConflictException (message : string)
| QueryFailedError (code : string)
| TypeError (message : string)
| Error (message : string).

(** [error.code]: only the driver's [QueryFailedError] carries one. *)
Definition code (e : Exception) : option string :=
  match e with
  | QueryFailedError c => Some c
  | _ => None
  end.

Inductive Outcome (A : Type) : Type :=
| Resolved (a : A) (db : Db)
| Rejected (e : Exception) (db : Db).
Arguments Rejected {A} e db.

Definition Promise (A : Type) : Type := Db -> Outcome A.

Definition resolve {A : Type} (a : A) : Promise A := fun db => Resolved a db.
Definition throw {A : Type} (e : Exception) : Promise A := fun db => Rejected e db.

Definition await {A B : Type} (p : Promise A) (k : A -> Promise B) : Promise B :=
  fun db =>
    match p db with
    | Resolved a db' => k a db'
    | Rejected e db' => Rejected e db'
    end.

(** [p.catch(handler)]: a resolved value passes through, a rejection is
    handed to [handler], whose own result (or rejection) replaces it. *)
Definition catch {A : Type} (p : Promise A) (handler : Exception -> Promise A) : Promise A :=
  fun db =>
    match p db with
    | Resolved a db' => Resolved a db'
    | Rejected e db' => handler e db'
    end.

Definition fmap {A B : Type} (f : A -> B) (p : Promise A) : Promise B :=
  await p (fun a => resolve (f a)).

Definition get {A : Type} (read : Db -> A) : Promise A := fun db => Resolved (read db) db.
Definition put (write : Db -> Db) : Promise unit := fun db => Resolved tt (write db).

Declare Scope promise_scope.
Delimit Scope promise_scope with promise.
Notation "'let!' x ':=' p 'in' k" := (await p (fun x => k))
  (at level 10, x name, p at level 200, k at level 200) : promise_scope.
Open Scope promise_scope.

Definition stateOf {A : Type} (o : Outcome A) : Db :=
  match o with
  | Resolved _ db => db
  | Rejected _ db => db
  end.

(** ** Statements of the store used by the repositories *)

Section Tables.
Variable Row : Type.

(** [findOne]: the first row that satisfies the condition. *)
Definition findOne (cond : Row -> bool) (table : list Row) : option Row :=
  find cond table.

(** Rows that a [DELETE ... WHERE cond] leaves, and its [affected] count. *)
Definition remaining (cond : Row -> bool) (table : list Row) : list Row :=
  filter (fun r => negb (cond r)) table.

Definition affected (cond : Row -> bool) (table : list Row) : nat :=
  List.length (filter cond table).

End Tables.

(** [findOneOrFail] on a table of the store. *)
Definition findOneOrFail {Row : Type} (table : Db -> list Row) (cond : Row -> bool) : Promise Row :=
  fun db =>
    match findOne cond (table db) with
    | Some r => Resolved r db
    | None => Rejected EntityNotFoundError db
    end.

(** Dropping a nullish value into a nullable column. *)
Definition asColumn {A : Type} (a : JsOpt A) : option A :=
  match a with
  | value x => Some x
  | _ => None
  end.

(** ** CourseRepository *)

Module CourseRepository.

Record CourseDto : Type := mkCourseDto {
  dto_id : CourseId;
  dto_shortname : string;
  dto_semester : string;
  dto_title : string;
  dto_link : JsOpt string;
  dto_isClosed : bool
}.

Record CourseConfigDto : Type := mkCourseConfigDto {
  dto_password : JsOpt string;
  dto_subscriptionUrl : JsOpt string;
  dto_groupSettings : JsObject;
  dto_assignmentTemplates : JsOpt (list JsObject);
  dto_admissionCriteria : JsOpt AdmissionCriteriaDto
}.

(** [configDto.admissionCriteria?.criteria?.length > 0] *)
Definition hasCriteria (a : JsOpt AdmissionCriteriaDto) : bool :=
  match a with
  | value dto =>
      match criteria dto with
      | value cs => Nat.ltb 0 (List.length cs)
      | _ => false
      end
  | _ => false
  end.

(** [array?.map(f)] *)
Definition optional_map {A B : Type} (f : A -> B) (a : JsOpt (list A)) : JsOpt (list B) :=
  match a with
  | value l => value (map f l)
  | null => undefined
  | undefined => undefined
  end.

Definition createInsertableEntity (courseDto : CourseDto) (configDto : CourseConfigDto) : Course :=
  let password :=
    if length_gt_0 (dto_password configDto) then asColumn (dto_password configDto) else None in
  let groupSettings := Object_assign [] (dto_groupSettings configDto) in
  let assignmentTemplates :=
    optional_map (fun t => Object_assign [] t) (dto_assignmentTemplates configDto) in
  let admission :=
    if hasCriteria (dto_admissionCriteria configDto)
    then option_map mkAdmissionCriteria (asColumn (dto_admissionCriteria configDto))
    else None in
  mkCourse (dto_id courseDto) (dto_shortname courseDto) (dto_semester courseDto)
           (dto_title courseDto) (dto_link courseDto) (dto_isClosed courseDto)
           (Some (mkCourseConfig password (dto_subscriptionUrl configDto) groupSettings
                                 assignmentTemplates admission))
           [].

(** [this.delete({ id: courseId })], then [deleteResult.affected == 1]. *)
Definition deleteCourse (courseId : CourseId) : Promise bool :=
  fun db =>
    let cond := fun c => course_id c =? courseId in
    Resolved (Nat.eqb (affected cond (courses db)) 1)
             (with_courses (remaining cond (courses db)) db).

End CourseRepository.

(** ** UserGroupRelationSubscriber *)

Module UserGroupRelationSubscriber.

(** A [UserGroupRelation] loaded with [relations: ["group"]]: the joined
    group is [null] when no group row has the relation's [groupId]. *)
Definition Loaded : Type := (UserGroupRelation * option Group)%type.

(** [repository.findOne(entity.id, { relations: ["group"] })]:
    [undefined] when no row has that id. *)
Definition reloadEntityWithRequiredRelations (entity : UserGroupRelation)
  : Promise (option Loaded) :=
  get (fun db =>
         match findOne (fun r => Nat.eqb (ugr_id r) (ugr_id entity)) (userGroupRelations db) with
         | Some r => Some (r, findOne (fun g => group_id g =? ugr_groupId r) (groups db))
         | None => None
         end).

(** Reading [entity.group.courseId] throws on an [undefined] entity and
    on a [null] group. *)
Definition createMessage (type : EventType) (entity : option Loaded)
  : Exception + UpdateMessage :=
  match entity with
  | None => inl (TypeError "Cannot read properties of undefined (reading 'group')")
  | Some (_, None) => inl (TypeError "Cannot read properties of null (reading 'courseId')")
  | Some (r, Some g) =>
      inr (mkUpdateMessage type USER_GROUP_RELATION (group_courseId g)
                           (ugr_userId r) (ugr_groupId r))
  end.

(** [getRepository(UpdateMessage).insert(message)] *)
Definition insertUpdateMessage (m : UpdateMessage) : Promise unit :=
  put (fun db => with_updateMessages (updateMessages db ++ [m]) db).

Definition notify (type : EventType) (entity : UserGroupRelation) : Promise unit :=
  let! reloadedEntity := reloadEntityWithRequiredRelations entity in
  match createMessage type reloadedEntity with
  | inl e => throw e
  | inr m => insertUpdateMessage m
  end.

Definition afterInsert (entity : UserGroupRelation) : Promise unit := notify INSERT entity.
Definition afterUpdate (entity : UserGroupRelation) : Promise unit := notify UPDATE entity.

(** [event.entity] of a removal as the subscriber receives it: the entity
    of [remove(entity)] has lost its primary key by then, and a DELETE by
    criteria hands over no entity at all. *)
Record Removed : Type := mkRemoved {
  removed_userId : UserId;
  removed_groupId : GroupId;
  removed_participantId : nat
}.

(** [repository.findOne(undefined, { relations: ["group"] })]: without an
    id the first row of the table is loaded. *)
Definition reloadWithoutId : Promise (option Loaded) :=
  get (fun db =>
         match userGroupRelations db with
         | r :: _ => Some (r, findOne (fun g => group_id g =? ugr_groupId r) (groups db))
         | [] => None
         end).

(** [afterRemove]: reading [entity.id] throws when there is no entity. *)
Definition afterRemove (entity : option Removed) : Promise unit :=
  match entity with
  | None => throw (TypeError "Cannot read properties of undefined (reading 'id')")
  | Some _ =>
      let! reloadedEntity := reloadWithoutId in
      match createMessage REMOVE reloadedEntity with
      | inl e => throw e
      | inr m => insertUpdateMessage m
      end
  end.

End UserGroupRelationSubscriber.

(** ** Persistence of [UserGroupRelation] entities

    [save] and [remove] of an entity run the statement and then the
    subscriber inside one transaction: a rejection of either leaves the
    store as it was. *)

Module UserGroupRelations.

Definition transaction {A : Type} (p : Promise A) : Promise A :=
  fun db =>
    match p db with
    | Resolved a db' => Resolved a db'
    | Rejected e _ => Rejected e db
    end.

Definition samePair (userId : UserId) (groupId : GroupId) (r : UserGroupRelation) : bool :=
  (ugr_userId r =? userId) && (ugr_groupId r =? groupId).

(** INSERT of a new row: the unique index on the pair answers with
    SQLSTATE 23505, the foreign key on [groupId] with 23503. *)
Definition insertRow (userId : UserId) (groupId : GroupId) (participantId : nat)
  : Promise UserGroupRelation :=
  fun db =>
    if existsb (samePair userId groupId) (userGroupRelations db)
    then Rejected (QueryFailedError "23505") db
    else if negb (existsb (fun g => group_id g =? groupId) (groups db))
    then Rejected (QueryFailedError "23503") db
    else
      let r := mkUserGroupRelation (nextId db) userId groupId participantId in
      Resolved r (with_nextId (S (nextId db))
                    (with_userGroupRelations (userGroupRelations db ++ [r]) db)).

(** [repository.save(entity)] of an entity that has no id yet. *)
Definition save (userId : UserId) (groupId : GroupId) (participantId : nat)
  : Promise UserGroupRelation :=
  transaction
    (let! r := insertRow userId groupId participantId in
     let! _ := UserGroupRelationSubscriber.afterInsert r in
     resolve r).

(** [repository.save(entity)] of a loaded entity: UPDATE by primary key. *)
Definition update (entity : UserGroupRelation) : Promise UserGroupRelation :=
  transaction
    (let! _ := put (fun db =>
                 with_userGroupRelations
                   (map (fun r => if Nat.eqb (ugr_id r) (ugr_id entity) then entity else r)
                        (userGroupRelations db)) db) in
     let! _ := UserGroupRelationSubscriber.afterUpdate entity in
     resolve entity).

(** The entity after its primary key has been taken off. *)
Definition strip (entity : UserGroupRelation) : UserGroupRelationSubscriber.Removed :=
  UserGroupRelationSubscriber.mkRemoved (ugr_userId entity) (ugr_groupId entity)
                                        (ugr_participantId entity).

(** [repository.remove(entity)]: DELETE by primary key, then the subscriber
    with the entity without its id, in one transaction. *)
Definition remove (entity : UserGroupRelation) : Promise UserGroupRelationSubscriber.Removed :=
  transaction
    (let! _ := put (fun db =>
                 with_userGroupRelations
                   (remaining (fun r => Nat.eqb (ugr_id r) (ugr_id entity))
                              (userGroupRelations db)) db) in
     let! _ := UserGroupRelationSubscriber.afterRemove (Some (strip entity)) in
     resolve (strip entity)).

(** [repository.delete(criteria)]: the DELETE runs outside of a
    transaction, then [afterRemove] is broadcast without an entity; the
    result carries the [affected] count. *)
Definition delete (criteria : UserGroupRelation -> bool) : Promise nat :=
  let! removed := get (fun db => affected criteria (userGroupRelations db)) in
  let! _ := put (fun db =>
               with_userGroupRelations (remaining criteria (userGroupRelations db)) db) in
  let! _ := UserGroupRelationSubscriber.afterRemove None in
  resolve removed.

End UserGroupRelations.

(** ** Pattern matching of the store: [name ILIKE pattern]

    [%] stands for any run of characters, [_] for any one character, a
    backslash takes the next character literally (a pattern that ends in a
    lone backslash matches nothing); letters match without regard to
    case. *)

Module Like.

Definition lower (c : ascii) : ascii :=
  let n := nat_of_ascii c in
  if Nat.leb 65 n && Nat.leb n 90 then ascii_of_nat (n + 32) else c.

Definition percent : ascii := "%"%char.
Definition underscore : ascii := "_"%char.
Definition backslash : ascii := "\"%char.

Fixpoint like (pattern : list ascii) : list ascii -> bool :=
  match pattern with
  | [] => fun s => match s with [] => true | _ => false end
  | p :: rest =>
      if Ascii.eqb p percent then
        fix any (s : list ascii) : bool :=
          like rest s || match s with [] => false | _ :: s' => any s' end
      else if Ascii.eqb p underscore then
        fun s => match s with [] => false | _ :: s' => like rest s' end
      else if Ascii.eqb p backslash then
        match rest with
        | [] => fun _ => false
        | q :: rest' =>
            fun s => match s with [] => false | c :: s' => Ascii.eqb q c && like rest' s' end
        end
      else
        fun s => match s with [] => false | c :: s' => Ascii.eqb p c && like rest s' end
  end.

Definition ilike (name pattern : string) : bool :=
  like (map lower (list_ascii_of_string pattern)) (map lower (list_ascii_of_string name)).

End Like.

(** ** GroupRepository *)

Module GroupRepository.

Record GroupDto : Type := mkGroupDto {
  dto_name : string;
  dto_password : JsOpt string;
  dto_isClosed : JsOpt bool
}.

Record GroupUpdateDto : Type := mkGroupUpdateDto {
  update_name : JsOpt string;
  update_password : JsOpt string;
  update_isClosed : JsOpt bool
}.

(** The properties [createEntityFromDto] assigns on a [new Group()]. *)
Record NewGroup : Type := mkNewGroup {
  new_name : string;
  new_password : option string;
  new_isClosed : bool
}.

Definition createEntityFromDto (groupDto : GroupDto) : NewGroup :=
  mkNewGroup (dto_name groupDto)
             (if length_gt_0 (dto_password groupDto) then asColumn (dto_password groupDto) else None)
             (if truthy_bool (dto_isClosed groupDto) then true else false).

(** Modelled from the spec: ParticipantRepository.getParticipant is not part
    of the sources at hand; the participant of a user in a course, NotFound
    when the user does not take part in the course. *)
Definition getParticipant (courseId : CourseId) (userId : UserId) : Promise ParticipantEntity :=
  findOneOrFail participants
    (fun p => (participant_courseId p =? courseId) && (participant_userId p =? userId)).

Definition alreadyMember : string := "This user is already a member of this group.".

Definition addUserToGroup (courseId : CourseId) (groupId : GroupId) (userId : UserId)
  : Promise bool :=
  let! participant := getParticipant courseId userId in
  let! saved :=
    catch (fmap (@Some _) (UserGroupRelations.save userId groupId (participant_id participant)))
          (fun error =>
             match code error with
             | Some c => if c =? "23505" then throw (ConflictException alreadyMember)
                         else resolve None
             | None => resolve None
             end) in
  (* [userGroupRelation ? true : false]: the entity object is truthy *)
  resolve true.

Definition getGroupById (groupId : GroupId) : Promise Group :=
  findOneOrFail groups (fun g => group_id g =? groupId).

(** The group with its course: the inner joins need the course, its
    config (with the group settings) and the user's participant row. *)
Definition getGroupForAddUserToGroup (groupId : GroupId) (userId : UserId) : Promise Group :=
  fun db =>
    match findOne (fun g => group_id g =? groupId) (groups db) with
    | Some g =>
        match findOne (fun c => course_id c =? group_courseId g) (courses db) with
        | Some c =>
            match course_config c,
                  findOne (fun p => (participant_courseId p =? course_id c)
                                    && (participant_userId p =? userId))
                          (participants db) with
            | Some _, Some _ => Resolved g db
            | _, _ => Rejected EntityNotFoundError db
            end
        | None => Rejected EntityNotFoundError db
        end
    | None => Rejected EntityNotFoundError db
    end.

(** [ORDER BY createdAt DESC] *)
Fixpoint insertByCreatedAt (g : Group) (sorted : list Group) : list Group :=
  match sorted with
  | [] => [g]
  | h :: t => if Nat.leb (group_createdAt h) (group_createdAt g)
              then g :: h :: t
              else h :: insertByCreatedAt g t
  end.

Definition orderByCreatedAtDesc (gs : list Group) : list Group :=
  fold_right insertByCreatedAt [] gs.

#[warnings="-abstract-large-number"]
Definition maxSuffix : nat := 9999.

(** The loop [for (let i = from; i <= 9999; i++)] with [steps] rounds left. *)
Fixpoint scan (groups : list Group) (schema : string) (i steps : nat) : option string :=
  match steps with
  | 0 => None
  | S steps' =>
      let suggestion := (schema ++ toString i)%string in
      match find (fun group => group_name group =? suggestion) groups with
      | None => Some suggestion
      | Some _ => scan groups schema (S i) steps'
      end
  end.

Definition noAvailableName : string := "No available group name.".

Definition tryFindAvailableName (groups : list Group) (schema : string) : Exception + string :=
  match scan groups schema 1 maxSuffix with
  | Some suggestion => inr suggestion
  | None => inl (Error noAvailableName)
  end.

(** The groups the query of [getAvailableGroupNameForSchema] fetches. *)
Definition groupsForSchema (courseId : CourseId) (schema : string) (db : Db) : list Group :=
  orderByCreatedAtDesc
    (filter (fun g => (group_courseId g =? courseId)
                      && Like.ilike (group_name g) ("%" ++ schema ++ "%")%string)
            (groups db)).

Definition getAvailableGroupNameForSchema (courseId : CourseId) (schema : string)
  : Promise string :=
  let! groups := get (groupsForSchema courseId schema) in
  match tryFindAvailableName groups schema with
  | inr name => resolve name
  | inl e => throw e
  end.

(** [this.save(group)] of a loaded group: the row with its id is replaced. *)
Definition save (group : Group) : Promise Group :=
  fun db =>
    Resolved group
      (with_groups (map (fun g => if group_id g =? group_id group then group else g)
                        (groups db)) db).

Definition updateGroup (groupId : GroupId) (update : GroupUpdateDto) : Promise Group :=
  let! group := getGroupById groupId in
  let password :=
    if isEmptyString (update_password update) then None
    else if truthy (update_password update) then asColumn (update_password update)
    else group_password group in
  let name := nullish (update_name update) (group_name group) in
  let isClosed := nullish (update_isClosed update) (group_isClosed group) in
  save (mkGroup (group_id group) (group_courseId group) name password isClosed
                (group_createdAt group)).

(** [delete({ groupId, userId })] on the relation table, then
    [removed.affected == 1]. *)
Definition removeUser (groupId : GroupId) (userId : UserId) : Promise bool :=
  let! removed := UserGroupRelations.delete (UserGroupRelations.samePair userId groupId) in
  resolve (Nat.eqb removed 1).

Definition deleteGroup (groupId : GroupId) : Promise bool :=
  fun db =>
    let cond := fun g => group_id g =? groupId in
    Resolved (Nat.eqb (affected cond (groups db)) 1)
             (with_groups (remaining cond (groups db)) db).

End GroupRepository.

(** ** GroupService *)

Module GroupService.

Definition groupClosed : string := "Group is closed.".

(** Modelled from the spec: GroupService.addUserToGroup, the caller of
    [GroupRepository.addUserToGroup], is not part of the sources at hand.
    [join] fails with NotFound if the group or the participant does not
    exist, with Conflict if the group is closed, and hands over to the
    repository otherwise. The group is loaded with the repository's
    [getGroupForAddUserToGroup]. *)
Definition join (courseId : CourseId) (groupId : GroupId) (userId : UserId) : Promise bool :=
  let! group := GroupRepository.getGroupForAddUserToGroup groupId userId in
  if group_isClosed group
  then throw (ConflictException groupClosed)
  else GroupRepository.addUserToGroup courseId groupId userId.

End GroupService.

(** ** CourseUserRelationRepository *)

Module CourseUserRelationRepository.

Definition alreadySignedUp : string := "This user is already signed up to the course.".

(** [courseUserRelation.save()]: INSERT of the row; the unique index on
    (courseId, userId) answers with SQLSTATE 23505, the foreign key on
    [courseId] with 23503. *)
Definition save (relation : CourseUserRelation) : Promise CourseUserRelation :=
  fun db =>
    if existsb (fun r => (cur_courseId r =? cur_courseId relation)
                         && (cur_userId r =? cur_userId relation))
               (courseUserRelations db)
    then Rejected (QueryFailedError "23505") db
    else if negb (existsb (fun c => course_id c =? cur_courseId relation) (courses db))
    then Rejected (QueryFailedError "23503") db
    else Resolved relation
           (with_courseUserRelations (courseUserRelations db ++ [relation]) db).

Definition addUserToCourse (courseId : CourseId) (userId : UserId) (role : UserRoles)
  : Promise CourseUserRelation :=
  let courseUserRelation := mkCourseUserRelation courseId userId role in
  let! _ :=
    catch (fmap (@Some _) (save courseUserRelation))
          (fun error =>
             match code error with
             | Some c => if c =? "23505" then throw (ConflictException alreadySignedUp)
                         else resolve None
             | None => resolve None
             end) in
  resolve courseUserRelation.

End CourseUserRelationRepository.

(** ** AssignmentRegistrationRepository *)

Module AssignmentRegistrationRepository.

Definition forGroup (assignmentId : AssignmentId) (groupId : GroupId)
           (r : AssignmentRegistration) : bool :=
  (reg_assignmentId r =? assignmentId)
  && match reg_groupId r with Some g => g =? groupId | None => false end.


Definition forAssignment (assignmentId : AssignmentId) (r : AssignmentRegistration) : bool :=
  reg_assignmentId r =? assignmentId.

Definition hasId (id : nat) (r : AssignmentRegistration) : bool := Nat.eqb (reg_id r) id.

Definition tryGetRegistration (assignmentId : AssignmentId) (groupId : GroupId)
  : Promise (option AssignmentRegistration) :=
  get (fun db => findOne (forGroup assignmentId groupId) (registrations db)).

(** [this.save(registration)] of a new registration with its relations:
    the store generates the id. *)
Definition save (assignmentId : AssignmentId) (groupId : GroupId) (participantIds : list nat)
  : Promise AssignmentRegistration :=
  fun db =>
    let id := nextId db in
    let registration :=
      mkAssignmentRegistration id assignmentId (Some groupId) None
        (map (mkGroupRegistrationRelation id) participantIds) in
    Resolved registration
      (with_nextId (S id) (with_registrations (registrations db ++ [registration]) db)).

Definition isMember (participantId : nat) (r : AssignmentRegistration) : bool :=
  existsb (fun rel => Nat.eqb (grr_participantId rel) participantId) (reg_groupRelations r).

Definition addRelation (rel : GroupRegistrationRelation) (r : AssignmentRegistration)
  : AssignmentRegistration :=
  mkAssignmentRegistration (reg_id r) (reg_assignmentId r) (reg_groupId r) (reg_userId r)
                           (reg_groupRelations r ++ [rel]).

(** [groupRelationsRepository.insert(row)]: a participant who is already
    registered violates the unique index (the doc comment of
    [createRegistration]: throws if the user is already registered). *)
Definition insertRelation (rel : GroupRegistrationRelation) : Promise unit :=
  fun db =>
    if existsb (fun r => hasId (grr_assignmentRegistrationId rel) r
                         && isMember (grr_participantId rel) r)
               (registrations db)
    then Rejected (QueryFailedError "23505") db
    else Resolved tt
           (with_registrations
              (map (fun r => if hasId (grr_assignmentRegistrationId rel) r
                             then addRelation rel r else r)
                   (registrations db)) db).

Definition createRegistration (assignmentId : AssignmentId) (groupId : GroupId)
           (userId : UserId) (participantId : nat)
  : Promise (option AssignmentRegistration) :=
  let! groupRegistration := tryGetRegistration assignmentId groupId in
  match groupRegistration with
  | None => fmap (@Some _) (save assignmentId groupId [participantId])
  | Some groupRegistration =>
      let! _ := insertRelation
                  (mkGroupRegistrationRelation (reg_id groupRegistration) participantId) in
      get (fun db => findOne (hasId (reg_id groupRegistration)) (registrations db))
  end.

Definition hasRegistrations (assignmentId : AssignmentId) : Promise bool :=
  get (fun db =>
         match findOne (forAssignment assignmentId) (registrations db) with
         | Some _ => true
         | None => false
         end).

(** [this.remove(entities)]: DELETE by primary key of each entity. *)
Definition remove (entities : list AssignmentRegistration) : Promise (list AssignmentRegistration) :=
  fun db =>
    Resolved entities
      (with_registrations
         (remaining (fun r => existsb (fun e => hasId (reg_id e) r) entities)
                    (registrations db)) db).


Definition removeRegistrationForGroup (assignmentId : AssignmentId) (groupId : GroupId)
  : Promise bool :=
  let! found := get (fun db => filter (forGroup assignmentId groupId) (registrations db)) in
  if Nat.eqb (List.length found) 0 then resolve false
  else let! _ := remove found in resolve true.

Definition removeRegistrations (assignmentId : AssignmentId) : Promise unit :=
  put (fun db =>
         with_registrations (remaining (forAssignment assignmentId) (registrations db)) db).

End AssignmentRegistrationRepository.

(** ** Predicates on stores and sample stores *)

Import AssignmentRegistrationRepository.

Definition sampleCourse : Course :=
  mkCourse "c1" "java" "wise1920" "Programming Lab" undefined false
           (Some (mkCourseConfig None undefined [] undefined None)) [].

Definition sampleGroup : Group := mkGroup "g1" "c1" "Team1" None false 0.

Definition sampleDb : Db :=
  mkDb [sampleCourse] [mkParticipant 7 "c1" "u1" STUDENT] [sampleGroup]
       [mkUserGroupRelation 0 "u1" "g1" 7] [] [] [] 1.

Definition absentOrEmpty (password : JsOpt string) : Prop :=
  password = undefined \/ password = null \/ password = value "".

(** The unique index on the membership pair. *)
Definition uniqueMembership (db : Db) : Prop :=
  NoDup (map (fun r => (ugr_userId r, ugr_groupId r)) (userGroupRelations db)).

Definition isMemberOf (db : Db) (groupId : GroupId) (userId : UserId) : Prop :=
  exists r, In r (userGroupRelations db) /\ ugr_groupId r = groupId /\ ugr_userId r = userId.

(** A store without the course ["c404"] and without the group ["g404"]. *)
Definition storeWithoutTarget : Db :=
  mkDb [sampleCourse] [mkParticipant 7 "c1" "u1" STUDENT] [sampleGroup] [] [] [] [] 0.

(** Ids of stored relations come from the sequence. *)
Definition idsBelowNext (db : Db) : Prop :=
  forall r, In r (userGroupRelations db) -> ugr_id r < nextId db.





Definition twoRegistrations : Db :=
  with_nextId 2
    (with_registrations
       [mkAssignmentRegistration 0 "a1" (Some "g1") None [mkGroupRegistrationRelation 0 7];
        mkAssignmentRegistration 1 "a1" (Some "g2") None [mkGroupRegistrationRelation 1 8]]
       emptyDb).

(** Primary keys of registrations are distinct and come from the sequence. *)
Definition registrationIds (db : Db) : Prop :=
  NoDup (map reg_id (registrations db))
  /\ forall r, In r (registrations db) -> reg_id r < nextId db.

Definition atMostOneRegistration (db : Db) : Prop :=
  forall assignmentId groupId,
    List.length (filter (forGroup assignmentId groupId) (registrations db)) <= 1.

Definition members (r : AssignmentRegistration) : list nat :=
  map grr_participantId (reg_groupRelations r).

Definition appendMember (id participantId : nat) (r : AssignmentRegistration)
  : AssignmentRegistration :=
  if hasId id r then addRelation (mkGroupRegistrationRelation id participantId) r else r.

Definition registerAll (participantIds : list nat) (db : Db) : Db :=
  fold_left (fun db' p => stateOf (createRegistration "a1" "g1" "u1" p db')) participantIds db.

Definition noBackslash (schema : string) : Prop :=
  existsb (Ascii.eqb Like.backslash) (list_ascii_of_string schema) = false.

(** A group of the course has this name. *)
Definition nameInCourse (db : Db) (courseId : CourseId) (name : string) : Prop :=
  exists g, In g (groups db) /\ group_courseId g = courseId /\ group_name g = name.

Definition nameAmong (groups : list Group) (name : string) : Prop :=
  exists g, In g groups /\ group_name g = name.

(** A course in which Team1 .. Team9999 are all taken. *)
Definition teamGroups : list Group :=
  map (fun n => mkGroup ("g" ++ toString n)%string "c1" ("Team" ++ toString n)%string None false n)
      (seq 1 GroupRepository.maxSuffix).

Definition fullCourse : Db := with_groups teamGroups emptyDb.

(** A schema with a backslash: a group with the first name exists. *)
Definition backslashCourse : Db := with_groups [mkGroup "g1" "c1" "T\1" None false 0] emptyDb.

(** ** Further methods of the repositories *)

Record User : Type := mkUser {
  user_id : UserId;
  user_username : string;
  user_rzName : string
}.

Definition with_participants (ps : list ParticipantEntity) (db : Db) : Db :=
  mkDb (courses db) ps (groups db) (userGroupRelations db)
       (courseUserRelations db) (registrations db) (updateMessages db) (nextId db).

(** *** CourseRepository: creating, reading and updating courses *)

Module Courses.

(** [CourseCreateDto extends CourseDto] with the optional lecturers. *)
Record CourseCreateDto : Type := mkCourseCreateDto {
  create_dto : CourseRepository.CourseDto;
  create_lecturers : JsOpt (list string)
}.

Record CourseFilter : Type := mkCourseFilter {
  filter_title : JsOpt string;
  filter_shortname : JsOpt string;
  filter_semester : JsOpt string
}.

(** [courseDto.lecturers?.length > 0] *)
Definition hasLecturers (lecturers : JsOpt (list string)) : bool :=
  match lecturers with
  | value names => Nat.ltb 0 (List.length names)
  | _ => false
  end.

(** [userRepo.find({ where: lecturers.map(username => ({ username })) })]:
    the users that satisfy one of the conditions. *)
Definition findLecturers (users : list User) (lecturers : JsOpt (list string)) : list User :=
  match lecturers with
  | value names => filter (fun u => existsb (fun name => user_username u =? name) names) users
  | _ => []
  end.

(** Participant rows that the cascade of [save] inserts for a course, with
    ids from the sequence. *)
Definition insertParticipants (courseId : CourseId) (ps : list (UserId * CourseRole)) (db : Db)
  : Db :=
  with_nextId (nextId db + List.length ps)
    (with_participants
       (participants db
        ++ map (fun ip => mkParticipant (fst ip) courseId (fst (snd ip)) (snd (snd ip)))
               (combine (seq (nextId db) (List.length ps)) ps))
       db).

(** [this.save(course)]: the row with the id of the course is replaced, or
    the course is inserted; [cascade] holds the participants that are set
    on the entity and not yet stored. *)
Definition save (course : Course) (cascade : list (UserId * CourseRole)) : Promise Course :=
  fun db =>
    let sameId := fun c => course_id c =? course_id course in
    let rows := if existsb sameId (courses db)
                then map (fun c => if sameId c then course else c) (courses db)
                else courses db ++ [course] in
    Resolved course (insertParticipants (course_id course) cascade (with_courses rows db)).

Definition withParticipants (ps : list (UserId * CourseRole)) (c : Course) : Course :=
  mkCourse (course_id c) (course_shortname c) (course_semester c) (course_title c)
           (course_link c) (course_isClosed c) (course_config c) ps.

(** [createCourse]; the user table, which the store record does not hold,
    is an argument. *)
Definition createCourse (users : list User) (courseDto : CourseCreateDto)
           (config : CourseRepository.CourseConfigDto) : Promise Course :=
  let course := CourseRepository.createInsertableEntity (create_dto courseDto) config in
  if hasLecturers (create_lecturers courseDto)
  then
    let lecturers := findLecturers users (create_lecturers courseDto) in
    let participants := map (fun lecturer => (user_id lecturer, LECTURER)) lecturers in
    save (withParticipants participants course) participants
  else save course [].

Definition hasKeys (f : CourseFilter) : bool :=
  match filter_title f, filter_shortname f, filter_semester f with
  | undefined, undefined, undefined => false
  | _, _, _ => true
  end.

Definition stringOr (s : JsOpt string) (default : string) : string :=
  match s with
  | value x => x
  | _ => default
  end.

(** The query of [getCourses]: the title pattern always, shortname and
    semester only when they are truthy. *)
Definition matchesFilter (f : CourseFilter) (c : Course) : bool :=
  let title := if truthy (filter_title f) then stringOr (filter_title f) "" else "" in
  Like.ilike (course_title c) ("%" ++ title ++ "%")%string
  && (if truthy (filter_shortname f)
      then course_shortname c =? stringOr (filter_shortname f) "" else true)
  && (if truthy (filter_semester f)
      then course_semester c =? stringOr (filter_semester f) "" else true).

Definition getCourses (filter : JsOpt CourseFilter) : Promise (list Course) :=
  get (fun db =>
         match filter with
         | value f => if hasKeys f then List.filter (matchesFilter f) (courses db)
                      else courses db
         | _ => courses db
         end).

Definition getCourseById (id : CourseId) : Promise Course :=
  findOneOrFail courses (fun c => course_id c =? id).

Definition getCourseByNameAndSemester (name semester : string) : Promise Course :=
  findOneOrFail courses
    (fun c => (course_shortname c =? name) && (course_semester c =? semester)).

(** [this.save(course)] of a loaded course: UPDATE of the row with the
    id of the entity; a property that is [undefined] on the entity is left
    out of the statement, so the stored value stays. *)
Definition storedAfterSave (stored entity : Course) : Course :=
  mkCourse (course_id entity) (course_shortname entity) (course_semester entity)
           (course_title entity)
           (match course_link entity with
            | undefined => course_link stored
            | link => link
            end)
           (course_isClosed entity) (course_config entity) (course_participants entity).

Definition saveLoaded (entity : Course) : Promise Course :=
  let! _ := put (fun db =>
               with_courses
                 (map (fun c => if course_id c =? course_id entity
                                then storedAfterSave c entity else c)
                      (courses db)) db) in
  resolve entity.

Definition updateCourse (courseId : CourseId) (courseDto : CourseRepository.CourseDto)
  : Promise Course :=
  let! course := getCourseById courseId in
  saveLoaded (mkCourse (course_id course)
                       (CourseRepository.dto_shortname courseDto)
                       (CourseRepository.dto_semester courseDto)
                       (CourseRepository.dto_title courseDto)
                       (CourseRepository.dto_link courseDto)
                       (CourseRepository.dto_isClosed courseDto)
                       (course_config course) (course_participants course)).

End Courses.

(** *** GroupRepository: reading groups *)

Module Groups.

(** [groupIds?.length == 0] answers with the empty list, [whereInIds]
    with the stored groups that have one of the ids. *)
Definition getGroupsByIds (groupIds : list GroupId) : Promise (list Group) :=
  get (fun db =>
         if Nat.eqb (List.length groupIds) 0 then []
         else filter (fun g => existsb (fun id => group_id g =? id) groupIds) (groups db)).

Record RecreatedParticipant : Type := mkRecreatedParticipant {
  rp_userId : UserId;
  rp_role : CourseRole;
  rp_username : string;
  rp_rzName : string
}.

Record RecreatedRelation : Type := mkRecreatedRelation {
  rr_user : User;
  rr_userId : UserId;
  rr_groupId : GroupId;
  rr_participant : RecreatedParticipant
}.

(** [groupIdUsersMap.get(id)] for a map given by its entries. *)
Definition mapGet (entries : list (GroupId * list User)) (id : GroupId) : option (list User) :=
  option_map snd (find (fun entry => fst entry =? id) entries).

Definition recreate (groupId : GroupId) (member : User) : RecreatedRelation :=
  mkRecreatedRelation member (user_id member) groupId
    (mkRecreatedParticipant (user_id member) STUDENT (user_username member) (user_rzName member)).

(** The [forEach] over the fetched groups; [get] of a missing key is
    [undefined] and its [forEach] throws. *)
Fixpoint recreateAll (entries : list (GroupId * list User)) (fetched : list Group)
  : Exception + list (Group * list RecreatedRelation) :=
  match fetched with
  | [] => inr []
  | group :: rest =>
      match mapGet entries (group_id group) with
      | None => inl (TypeError "Cannot read properties of undefined (reading 'forEach')")
      | Some members =>
          match recreateAll entries rest with
          | inl e => inl e
          | inr done => inr ((group, map (recreate (group_id group)) members) :: done)
          end
      end
  end.

Definition getRecreatedGroups (groupIdUsersMap : list (GroupId * list User))
  : Promise (list (Group * list RecreatedRelation)) :=
  let! fetched := getGroupsByIds (map fst groupIdUsersMap) in
  match recreateAll groupIdUsersMap fetched with
  | inr recreated => resolve recreated
  | inl e => throw e
  end.

(** [getGroupOfUserForCourse]: the second [where] of the query builder
    replaces the first, so the condition on the course is not part of the
    query; what is left is the inner join with the relations of the user. *)
Definition getGroupOfUserForCourse (courseId : CourseId) (userId : UserId) : Promise Group :=
  fun db =>
    match findOne (fun g => existsb (fun r => (ugr_groupId r =? group_id g)
                                              && (ugr_userId r =? userId))
                                    (userGroupRelations db))
                  (groups db) with
    | Some group => Resolved group db
    | None => Rejected EntityNotFoundError db
    end.

End Groups.

(** *** AssignmentRegistrationRepository: registering whole groups *)

Module Registrations.

(** A group loaded with its [userGroupRelations]. *)
Definition GroupWithMembers : Type := (Group * list UserGroupRelation)%type.

(** A registration entity before it is saved. *)
Record NewRegistration : Type := mkNewRegistration {
  new_assignmentId : AssignmentId;
  new_groupId : GroupId;
  new_participantIds : list nat
}.

Definition buildRegistrations (groups : list GroupWithMembers) (assignmentId : AssignmentId)
  : list NewRegistration :=
  map (fun group => mkNewRegistration assignmentId (group_id (fst group))
                      (map ugr_participantId (snd group)))
      groups.

(** [this.save(registrations)]: the entities are inserted one after the
    other. *)
Fixpoint saveAll (registrations : list NewRegistration) : Promise (list AssignmentRegistration) :=
  match registrations with
  | [] => resolve []
  | r :: rest =>
      let! saved := AssignmentRegistrationRepository.save
                      (new_assignmentId r) (new_groupId r) (new_participantIds r) in
      let! others := saveAll rest in
      resolve (saved :: others)
  end.

Definition createRegistrations (assignmentId : AssignmentId) (groups : list GroupWithMembers)
  : Promise (list AssignmentRegistration) :=
  let registrations := buildRegistrations groups assignmentId in
  if Nat.eqb (List.length registrations) 0 then resolve []
  else saveAll registrations.

End Registrations.

(** What [updateGroup] makes of a group. *)
Definition applyUpdate (update : GroupRepository.GroupUpdateDto) (group : Group) : Group :=
  mkGroup (group_id group) (group_courseId group)
          (nullish (GroupRepository.update_name update) (group_name group))
          (if isEmptyString (GroupRepository.update_password update) then None
           else if truthy (GroupRepository.update_password update)
                then asColumn (GroupRepository.update_password update)
                else group_password group)
          (nullish (GroupRepository.update_isClosed update) (group_isClosed group))
          (group_createdAt group).

(** An update without name, password and isClosed. *)
Definition emptyUpdate (update : GroupRepository.GroupUpdateDto) : Prop :=
  (forall name, GroupRepository.update_name update <> value name)
  /\ (forall password, GroupRepository.update_password update <> value password)
  /\ (forall isClosed, GroupRepository.update_isClosed update <> value isClosed).

Definition sampleUsers : list User :=
  [mkUser "u1" "mmustermann" "mm1"; mkUser "u2" "hpeter" "hp2"].

(** The store after a successful [save] of a new membership. *)
Definition joined (db : Db) (courseId : CourseId) (userId : UserId) (groupId : GroupId)
           (participantId : nat) : Db :=
  with_updateMessages
    (updateMessages db ++ [mkUpdateMessage INSERT USER_GROUP_RELATION courseId userId groupId])
    (with_nextId (S (nextId db))
       (with_userGroupRelations
          (userGroupRelations db ++ [mkUserGroupRelation (nextId db) userId groupId participantId])
          db)).

(** The participants [createCourse] sets on the course. *)
Definition lecturerParticipants (users : list User) (courseDto : Courses.CourseCreateDto)
  : list (UserId * CourseRole) :=
  if Courses.hasLecturers (Courses.create_lecturers courseDto)
  then map (fun lecturer => (user_id lecturer, LECTURER))
           (Courses.findLecturers users (Courses.create_lecturers courseDto))
  else [].

(** The user is named in the lecturers of the DTO. *)
Definition namedLecturer (courseDto : Courses.CourseCreateDto) (u : User) : Prop :=
  exists names, Courses.create_lecturers courseDto = value names /\ In (user_username u) names.

(** No title in a course filter, or the empty one. *)
Definition noTitle (title : JsOpt string) : Prop :=
  title = undefined \/ title = null \/ title = value "".

(** The rows that saving new registrations one after the other stores,
    with ids from [start] on. *)
Fixpoint storedFrom (start : nat) (news : list Registrations.NewRegistration)
  : list AssignmentRegistration :=
  match news with
  | [] => []
  | n :: rest =>
      mkAssignmentRegistration start (Registrations.new_assignmentId n)
        (Some (Registrations.new_groupId n)) None
        (map (mkGroupRegistrationRelation start) (Registrations.new_participantIds n))
      :: storedFrom (S start) rest
  end.

(** Two members of the same group. *)
Definition twoMembers : Db :=
  mkDb [sampleCourse] [mkParticipant 7 "c1" "u1" STUDENT; mkParticipant 8 "c1" "u2" STUDENT]
       [sampleGroup]
       [mkUserGroupRelation 0 "u1" "g1" 7; mkUserGroupRelation 1 "u2" "g1" 8] [] [] [] 2.

(** A course that has a link. *)
Definition linkedCourseDb : Db :=
  with_courses
    [mkCourse "c1" "java" "wise1920" "Programming Lab" (value "https://lab") false None []]
    emptyDb.

(** * Properties *)

(** ** Statements of the store *)

Section TableFacts.
Variable Row : Type.
Implicit Types (cond : Row -> bool) (table : list Row).

Lemma affected_length cond table :
  List.length table = affected cond table + List.length (remaining cond table).
Proof.
  unfold affected, remaining.
  induction table as [|r table IH]; simpl; [reflexivity|].
  destruct (cond r); simpl; lia.
Qed.

Lemma affected_0_iff cond table :
  affected cond table = 0 <-> (forall r, In r table -> cond r = false).
Proof.
  unfold affected.
  induction table as [|r table IH]; simpl.
  - split; [intros _ r []|reflexivity].
  - destruct (cond r) eqn:E; simpl.
    + split; [discriminate|].
      intros H. specialize (H r (or_introl eq_refl)). congruence.
    + rewrite IH. split.
      * intros H r' [<-|Hin]; auto.
      * intros H r' Hin. apply H. now right.
Qed.

Lemma remaining_all cond table :
  (forall r, In r table -> cond r = false) -> remaining cond table = table.
Proof.
  unfold remaining.
  induction table as [|r table IH]; simpl; intros H; [reflexivity|].
  rewrite (H r (or_introl eq_refl)). simpl. f_equal. apply IH.
  intros r' Hin. apply H. now right.
Qed.

Lemma findOne_none cond table :
  findOne cond table = None <-> (forall r, In r table -> cond r = false).
Proof.
  unfold findOne. split.
  - intros H r Hin. exact (find_none cond table H r Hin).
  - induction table as [|r table IH]; simpl; intros H; [reflexivity|].
    rewrite (H r (or_introl eq_refl)). apply IH. intros r' Hin. apply H. now right.
Qed.

Lemma findOne_some cond table r :
  findOne cond table = Some r -> In r table /\ cond r = true.
Proof. apply find_some. Qed.

Lemma existsb_false_iff cond table :
  existsb cond table = false <-> (forall r, In r table -> cond r = false).
Proof.
  induction table as [|r table IH]; simpl.
  - split; [intros _ r []|reflexivity].
  - rewrite orb_false_iff, IH. split.
    + intros [H1 H2] r' [<-|Hin]; auto.
    + intros H. split; [apply H; now left|]. intros r' Hin. apply H. now right.
Qed.

(** A key that identifies rows is matched by at most one row. *)
Lemma affected_le_1 (Key : Type) (key : Row -> Key) cond table :
  NoDup (map key table) ->
  (forall r r', cond r = true -> cond r' = true -> key r = key r') ->
  affected cond table <= 1.
Proof.
  unfold affected. intros Hnd Hkey.
  induction table as [|r table IH]; simpl; [lia|].
  inversion Hnd as [|k ks Hnotin Hnd']; subst.
  destruct (cond r) eqn:E; simpl; [|now apply IH].
  assert (Hz : filter cond table = []).
  { destruct (filter cond table) as [|r' rest] eqn:F; [reflexivity|exfalso].
    assert (Hin : In r' (filter cond table)) by (rewrite F; now left).
    apply filter_In in Hin. destruct Hin as [Hin Hc].
    apply Hnotin. rewrite (Hkey r r' E Hc). now apply in_map. }
  rewrite Hz. simpl. lia.
Qed.
End TableFacts.

Lemma unique_key_row (Row Key : Type) (key : Row -> Key) (table : list Row) (r r' : Row) :
  NoDup (map key table) -> In r table -> In r' table -> key r = key r' -> r = r'.
Proof.
  induction table as [|h t IH]; simpl; intros Hnd Hr Hr' Hkey; [destruct Hr|].
  inversion Hnd as [|x xs Hnotin Hnd']; subst.
  destruct Hr as [->|Hr], Hr' as [->|Hr'].
  - reflexivity.
  - exfalso. apply Hnotin. rewrite Hkey. now apply in_map.
  - exfalso. apply Hnotin. rewrite <- Hkey. now apply in_map.
  - now apply IH.
Qed.

Lemma with_courses_same db : with_courses (courses db) db = db.
Proof. now destruct db. Qed.

Lemma with_groups_same db : with_groups (groups db) db = db.
Proof. now destruct db. Qed.

Lemma with_userGroupRelations_same db :
  with_userGroupRelations (userGroupRelations db) db = db.
Proof. now destruct db. Qed.


Lemma eqb_1_iff n : Nat.eqb n 1 = true <-> n = 1.
Proof. apply Nat.eqb_eq. Qed.

(** ** Deleting a course or a group *)

(** C9: [deleteCourse] and [deleteGroup] always resolve; the boolean they
    resolve to is [true] exactly when the statement deleted one row, and
    for an id that no row has it is [false] and the store is unchanged. *)
Theorem delete_resolves_affected_is_1 (db : Db) (courseId : CourseId) (groupId : GroupId) :
  (exists b db',
      CourseRepository.deleteCourse courseId db = Resolved b db'
      /\ (b = true <-> List.length (courses db) - List.length (courses db') = 1)
      /\ ((forall c, In c (courses db) -> course_id c <> courseId) -> b = false /\ db' = db))
  /\
  (exists b db',
      GroupRepository.deleteGroup groupId db = Resolved b db'
      /\ (b = true <-> List.length (groups db) - List.length (groups db') = 1)
      /\ ((forall g, In g (groups db) -> group_id g <> groupId) -> b = false /\ db' = db)).
Proof.
  split.
  - unfold CourseRepository.deleteCourse.
    set (cond := fun c => course_id c =? courseId).
    exists (Nat.eqb (affected cond (courses db)) 1), (with_courses (remaining cond (courses db)) db).
    split; [reflexivity|]. split.
    + simpl. rewrite eqb_1_iff. pose proof (affected_length cond (courses db)). lia.
    + intros Hno.
      assert (Hall : forall c, In c (courses db) -> cond c = false).
      { intros c Hin. unfold cond. apply String.eqb_neq. now apply Hno. }
      rewrite (proj2 (affected_0_iff cond (courses db)) Hall).
      rewrite (remaining_all cond (courses db) Hall), with_courses_same. now split.
  - unfold GroupRepository.deleteGroup.
    set (cond := fun g => group_id g =? groupId).
    exists (Nat.eqb (affected cond (groups db)) 1), (with_groups (remaining cond (groups db)) db).
    split; [reflexivity|]. split.
    + simpl. rewrite eqb_1_iff. pose proof (affected_length cond (groups db)). lia.
    + intros Hno.
      assert (Hall : forall g, In g (groups db) -> cond g = false).
      { intros g Hin. unfold cond. apply String.eqb_neq. now apply Hno. }
      rewrite (proj2 (affected_0_iff cond (groups db)) Hall).
      rewrite (remaining_all cond (groups db) Hall), with_groups_same. now split.
Qed.

Lemma delete_resolves_affected_is_1_witness :
  CourseRepository.deleteCourse "c404" sampleDb = Resolved false sampleDb
  /\ GroupRepository.deleteGroup "g404" sampleDb = Resolved false sampleDb.
Proof.
  destruct (delete_resolves_affected_is_1 sampleDb "c404" "g404")
    as [(b & db' & Hc & _ & Hcno) (b2 & db2 & Hg & _ & Hgno)].
  assert (H1 : forall c, In c (courses sampleDb) -> course_id c <> "c404").
  { intros c [<-|[]]. discriminate. }
  assert (H2 : forall g, In g (groups sampleDb) -> group_id g <> "g404").
  { intros g [<-|[]]. discriminate. }
  destruct (Hcno H1) as [-> ->]. destruct (Hgno H2) as [-> ->].
  split; assumption.
Defined.

Example deleteCourse_existing :
  CourseRepository.deleteCourse "c1" sampleDb = Resolved true (with_courses [] sampleDb).
Proof. reflexivity. Qed.

(** ** Passwords of entities built from a DTO *)

Lemma length_gt_0_value (s : string) : length_gt_0 (value s) = negb (s =? "").
Proof. now destruct s. Qed.

(** What both builders compute from the DTO's password. *)
Lemma password_column (password : JsOpt string) :
  let column := if length_gt_0 password then asColumn password else None in
  (absentOrEmpty password -> column = None)
  /\ (forall s, password = value s -> s <> "" -> column = Some s)
  /\ column <> Some "".
Proof.
  simpl. repeat split.
  - intros [->|[->| ->]]; reflexivity.
  - intros s -> Hs. rewrite length_gt_0_value.
    apply String.eqb_neq in Hs. now rewrite Hs.
  - destruct password as [| |s]; simpl; try discriminate.
    destruct s; simpl; discriminate.
Qed.

(** C10: the config of a course built by [createInsertableEntity] and a
    group built by [createEntityFromDto] hold [null] as password when the
    DTO's password is absent or the empty string, keep a non-empty password,
    and so never hold the empty string. *)
Theorem built_entities_have_no_empty_password
  (courseDto : CourseRepository.CourseDto) (configDto : CourseRepository.CourseConfigDto)
  (groupDto : GroupRepository.GroupDto) :
  (exists config,
      course_config (CourseRepository.createInsertableEntity courseDto configDto) = Some config
      /\ (absentOrEmpty (CourseRepository.dto_password configDto) -> config_password config = None)
      /\ (forall s, CourseRepository.dto_password configDto = value s -> s <> "" ->
                    config_password config = Some s)
      /\ config_password config <> Some "")
  /\
  (let group := GroupRepository.createEntityFromDto groupDto in
   (absentOrEmpty (GroupRepository.dto_password groupDto) -> GroupRepository.new_password group = None)
   /\ (forall s, GroupRepository.dto_password groupDto = value s -> s <> "" ->
                 GroupRepository.new_password group = Some s)
   /\ GroupRepository.new_password group <> Some "").
Proof.
  split.
  - eexists. split; [reflexivity|]. simpl.
    exact (password_column (CourseRepository.dto_password configDto)).
  - simpl. exact (password_column (GroupRepository.dto_password groupDto)).
Qed.

Lemma built_entities_have_no_empty_password_witness :
  option_map config_password
    (course_config
       (CourseRepository.createInsertableEntity
          (CourseRepository.mkCourseDto "c1" "java" "wise1920" "Programming Lab" undefined false)
          (CourseRepository.mkCourseConfigDto (value "") undefined [] undefined undefined)))
  = Some None
  /\ GroupRepository.new_password
       (GroupRepository.createEntityFromDto (GroupRepository.mkGroupDto "Team1" undefined undefined))
     = None
  /\ GroupRepository.new_password
       (GroupRepository.createEntityFromDto (GroupRepository.mkGroupDto "Team1" (value "pw") null))
     = Some "pw".
Proof.
  pose (courseDto := CourseRepository.mkCourseDto "c1" "java" "wise1920" "Programming Lab" undefined false).
  pose (configDto := CourseRepository.mkCourseConfigDto (value "") undefined [] undefined undefined).
  destruct (built_entities_have_no_empty_password courseDto configDto
              (GroupRepository.mkGroupDto "Team1" undefined undefined))
    as [(config & Hc & Hnone & _) (Hg & _)].
  destruct (built_entities_have_no_empty_password courseDto configDto
              (GroupRepository.mkGroupDto "Team1" (value "pw") null))
    as [_ (_ & Hset & _)].
  fold courseDto configDto. rewrite Hc. simpl.
  rewrite (Hnone (or_intror (or_intror eq_refl))).
  split; [reflexivity|]. split.
  - apply Hg. now left.
  - apply (Hset "pw"); [reflexivity|discriminate].
Defined.

(** ** Partial update of a group *)

Lemma findOne_replace (Row : Type) (cond : Row -> bool) (table : list Row) (row new : Row) :
  findOne cond table = Some row -> cond new = true ->
  findOne cond (map (fun r => if cond r then new else r) table) = Some new.
Proof.
  unfold findOne. intros Hfind Hnew.
  induction table as [|r table IH]; simpl in *; [discriminate|].
  destruct (cond r) eqn:E.
  - now rewrite Hnew.
  - rewrite E. now apply IH.
Qed.

(** C6: [updateGroup] on an existing group resolves to the group with the
    fields of the update applied: a name or isClosed that is absent keeps
    the previous value, an empty-string password clears the password, an
    absent password keeps it, and id, course and creation time as well as
    all other rows and tables stay as they were. *)
Theorem updateGroup_applies_present_fields
  (db : Db) (groupId : GroupId) (update : GroupRepository.GroupUpdateDto) (group : Group) :
  findOne (fun g => group_id g =? groupId) (groups db) = Some group ->
  exists updated db',
    GroupRepository.updateGroup groupId update db = Resolved updated db'
    /\ group_id updated = group_id group
    /\ group_courseId updated = group_courseId group
    /\ group_createdAt updated = group_createdAt group
    /\ group_name updated =
         match GroupRepository.update_name update with
         | value name => name
         | _ => group_name group
         end
    /\ group_isClosed updated =
         match GroupRepository.update_isClosed update with
         | value isClosed => isClosed
         | _ => group_isClosed group
         end
    /\ group_password updated =
         match GroupRepository.update_password update with
         | value password => if password =? "" then None else Some password
         | _ => group_password group
         end
    /\ db' = with_groups (map (fun g => if group_id g =? groupId then updated else g) (groups db)) db
    /\ findOne (fun g => group_id g =? groupId) (groups db') = Some updated.
Proof.
  intros Hfind.
  destruct (findOne_some _ _ Hfind) as [_ Hid]. apply String.eqb_eq in Hid.
  unfold GroupRepository.updateGroup, GroupRepository.getGroupById, findOneOrFail, await.
  rewrite Hfind. unfold GroupRepository.save. cbn [group_id].
  eexists. eexists. split; [reflexivity|]. cbn [group_id group_courseId group_createdAt
    group_name group_isClosed group_password].
  do 5 (split; [reflexivity|]). split; [|split].
  - destruct (GroupRepository.update_password update) as [| |p]; try reflexivity.
    unfold isEmptyString, truthy, asColumn. destruct (p =? ""); reflexivity.
  - now rewrite Hid.
  - cbn [groups with_groups]. rewrite Hid.
    apply findOne_replace with (cond := fun g => group_id g =? groupId) (row := group);
      [exact Hfind | apply String.eqb_refl].
Qed.

Lemma updateGroup_applies_present_fields_witness :
  exists db',
    GroupRepository.updateGroup "g1"
      (GroupRepository.mkGroupUpdateDto undefined (value "") (value true)) sampleDb
    = Resolved (mkGroup "g1" "c1" "Team1" None true 0) db'.
Proof.
  destruct (updateGroup_applies_present_fields sampleDb "g1"
              (GroupRepository.mkGroupUpdateDto undefined (value "") (value true))
              (group := sampleGroup) eq_refl)
    as (updated & db' & Hrun & Hid & Hcourse & Hcreated & Hname & Hclosed & Hpw & _).
  exists db'. rewrite Hrun. f_equal.
  destruct updated; simpl in *; congruence.
Defined.

Example updateGroup_keeps_password :
  fmap group_password
       (GroupRepository.updateGroup "g1" (GroupRepository.mkGroupUpdateDto (value "A") undefined undefined))
       (with_groups [mkGroup "g1" "c1" "Team1" (Some "secret") false 0] sampleDb)
  = Resolved (Some "secret")
             (with_groups [mkGroup "g1" "c1" "A" (Some "secret") false 0] sampleDb).
Proof. reflexivity. Qed.

(** ** Leaving a group *)

Lemma samePair_true userId groupId r :
  UserGroupRelations.samePair userId groupId r = true <->
  ugr_userId r = userId /\ ugr_groupId r = groupId.
Proof.
  unfold UserGroupRelations.samePair.
  now rewrite andb_true_iff, !String.eqb_eq.
Qed.

Lemma samePair_affected_le_1 db userId groupId :
  uniqueMembership db ->
  affected (UserGroupRelations.samePair userId groupId) (userGroupRelations db) <= 1.
Proof.
  intros Hu. apply affected_le_1 with (key := fun r => (ugr_userId r, ugr_groupId r)); [exact Hu|].
  intros r r' H H'. apply samePair_true in H, H'.
  destruct H as [-> ->], H' as [-> ->]. reflexivity.
Qed.

Lemma not_member_no_match db groupId userId :
  ~ isMemberOf db groupId userId ->
  forall r, In r (userGroupRelations db) -> UserGroupRelations.samePair userId groupId r = false.
Proof.
  intros Hno r Hin.
  destruct (UserGroupRelations.samePair userId groupId r) eqn:E; [exfalso|reflexivity].
  apply samePair_true in E. destruct E as [Hu Hg].
  apply Hno. now exists r.
Qed.

(** What [removeUser] does on every store: the rows of the pair are
    deleted, then the subscriber throws on the missing entity. *)
Lemma removeUser_run db groupId userId :
  GroupRepository.removeUser groupId userId db
  = Rejected (TypeError "Cannot read properties of undefined (reading 'id')")
      (with_userGroupRelations
         (remaining (UserGroupRelations.samePair userId groupId) (userGroupRelations db)) db).
Proof. reflexivity. Qed.

(** C5: [removeUser] does not resolve on any store: after the
    DELETE the subscriber is handed no entity and throws, so the caller
    gets a TypeError instead of [true] for a member, whose row is gone by
    then, and instead of [false] for a pair that is no member, for which
    the store, update messages included, stays as it was. *)
Theorem removeUser_is_rejected (db : Db) (groupId : GroupId) (userId : UserId) :
  exists db',
    GroupRepository.removeUser groupId userId db
    = Rejected (TypeError "Cannot read properties of undefined (reading 'id')") db'
    /\ (forall r, In r (userGroupRelations db') <->
                  In r (userGroupRelations db)
                  /\ ~ (ugr_groupId r = groupId /\ ugr_userId r = userId))
    /\ updateMessages db' = updateMessages db
    /\ (~ isMemberOf db groupId userId -> db' = db).
Proof.
  rewrite removeUser_run. eexists. split; [reflexivity|].
  set (cond := UserGroupRelations.samePair userId groupId).
  cbn [userGroupRelations updateMessages with_userGroupRelations].
  split; [|split; [reflexivity|]].
  - intros r. unfold remaining. rewrite filter_In, negb_true_iff. split.
    + intros [Hr Hc]. split; [exact Hr|]. intros [Hg Hu].
      assert (cond r = true) by (apply samePair_true; now split). congruence.
    + intros [Hr Hn]. split; [exact Hr|].
      destruct (cond r) eqn:E; [|reflexivity]. apply samePair_true in E. tauto.
  - intros Hno. pose proof (not_member_no_match Hno) as Hall. fold cond in Hall.
    rewrite (remaining_all cond (userGroupRelations db) Hall).
    apply with_userGroupRelations_same.
Qed.

Lemma removeUser_is_rejected_witness :
  GroupRepository.removeUser "g1" "u2" sampleDb
  = Rejected (TypeError "Cannot read properties of undefined (reading 'id')") sampleDb.
Proof.
  destruct (removeUser_is_rejected sampleDb "g1" "u2") as (db' & Hrun & _ & _ & Hno).
  assert (H : ~ isMemberOf sampleDb "g1" "u2").
  { intros (r & [<-|[]] & _ & Huser). discriminate. }
  now rewrite Hrun, (Hno H).
Defined.

Example removeUser_member :
  GroupRepository.removeUser "g1" "u1" sampleDb
  = Rejected (TypeError "Cannot read properties of undefined (reading 'id')")
             (with_userGroupRelations [] sampleDb).
Proof. reflexivity. Qed.

(** ** Joining a group *)

Lemma isMemberOf_existsb db groupId userId :
  isMemberOf db groupId userId <->
  existsb (UserGroupRelations.samePair userId groupId) (userGroupRelations db) = true.
Proof.
  rewrite existsb_exists. split.
  - intros (r & Hin & Hg & Hu). exists r. split; [exact Hin|]. now apply samePair_true.
  - intros (r & Hin & Hc). apply samePair_true in Hc. exists r. tauto.
Qed.

(** The INSERT of a pair that is already stored is refused by the unique
    index, and so is the [save] that wraps it. *)
Lemma save_duplicate db userId groupId participantId :
  isMemberOf db groupId userId ->
  UserGroupRelations.save userId groupId participantId db
  = Rejected (QueryFailedError "23505") db.
Proof.
  intros Hm. apply isMemberOf_existsb in Hm.
  unfold UserGroupRelations.save, UserGroupRelations.transaction, await,
    UserGroupRelations.insertRow.
  now rewrite Hm.
Qed.

Lemma addUserToGroup_duplicate db courseId groupId userId participant :
  findOne (fun p => (participant_courseId p =? courseId) && (participant_userId p =? userId))
          (participants db) = Some participant ->
  isMemberOf db groupId userId ->
  GroupRepository.addUserToGroup courseId groupId userId db
  = Rejected (ConflictException GroupRepository.alreadyMember) db.
Proof.
  intros Hp Hm.
  unfold GroupRepository.addUserToGroup, GroupRepository.getParticipant, findOneOrFail, await.
  rewrite Hp. unfold catch, fmap, await.
  now rewrite (save_duplicate (participant_id participant) Hm).
Qed.

(** C2: for a participant of the course, adding a user who is already a
    member of the group is rejected with the ConflictException whose message
    says "already a member"; [join] is rejected with a ConflictException
    when the group is closed or the pair is already stored, and the store
    is left as it was. *)
Theorem join_conflict_when_member_or_closed
  (db : Db) (courseId : CourseId) (groupId : GroupId) (userId : UserId)
  (participant : ParticipantEntity) (group : Group) :
  findOne (fun p => (participant_courseId p =? courseId) && (participant_userId p =? userId))
          (participants db) = Some participant ->
  GroupRepository.getGroupForAddUserToGroup groupId userId db = Resolved group db ->
  (isMemberOf db groupId userId ->
   GroupRepository.addUserToGroup courseId groupId userId db
   = Rejected (ConflictException GroupRepository.alreadyMember) db)
  /\ index 0 "already a member" GroupRepository.alreadyMember = Some 13
  /\ (group_isClosed group = true \/ isMemberOf db groupId userId ->
      exists message,
        GroupService.join courseId groupId userId db = Rejected (ConflictException message) db
        /\ (group_isClosed group = false -> message = GroupRepository.alreadyMember)).
Proof.
  intros Hp Hg. split; [|split].
  - now apply addUserToGroup_duplicate with (participant := participant).
  - reflexivity.
  - intros Hor. unfold GroupService.join, await. rewrite Hg.
    destruct (group_isClosed group) eqn:Hclosed.
    + exists GroupService.groupClosed. split; [reflexivity|discriminate].
    + destruct Hor as [Hc|Hm]; [discriminate|].
      exists GroupRepository.alreadyMember. split; [|reflexivity].
      now apply addUserToGroup_duplicate with (participant := participant).
Qed.

Lemma join_conflict_when_member_or_closed_witness :
  GroupService.join "c1" "g1" "u1" sampleDb
  = Rejected (ConflictException "This user is already a member of this group.") sampleDb.
Proof.
  destruct (@join_conflict_when_member_or_closed sampleDb "c1" "g1" "u1"
              (mkParticipant 7 "c1" "u1" STUDENT) sampleGroup eq_refl eq_refl)
    as (_ & _ & Hjoin).
  assert (Hm : isMemberOf sampleDb "g1" "u1").
  { exists (mkUserGroupRelation 0 "u1" "g1" 7). simpl. tauto. }
  destruct (Hjoin (or_intror Hm)) as (message & Hrun & Hmsg).
  rewrite Hrun, (Hmsg eq_refl). reflexivity.
Defined.

Example join_closed_group :
  GroupService.join "c1" "g1" "u1"
    (with_groups [mkGroup "g1" "c1" "Team1" None true 0] sampleDb)
  = Rejected (ConflictException "Group is closed.")
             (with_groups [mkGroup "g1" "c1" "Team1" None true 0] sampleDb).
Proof. reflexivity. Qed.

Example join_new_member :
  GroupService.join "c1" "g1" "u2"
    (mkDb [sampleCourse] [mkParticipant 8 "c1" "u2" STUDENT] [sampleGroup] [] [] [] [] 0)
  = Resolved true
      (mkDb [sampleCourse] [mkParticipant 8 "c1" "u2" STUDENT] [sampleGroup]
            [mkUserGroupRelation 0 "u2" "g1" 8] [] []
            [mkUpdateMessage INSERT USER_GROUP_RELATION "c1" "u2" "g1"] 1).
Proof. reflexivity. Qed.

(** ** Store errors while adding a user *)

(** What the [catch] handler of [addUserToCourse] makes of the outcome of
    [save]: only SQLSTATE 23505 is turned into a rejection. *)
Lemma addUserToCourse_outcome db courseId userId role :
  let relation := mkCourseUserRelation courseId userId role in
  CourseUserRelationRepository.addUserToCourse courseId userId role db =
  match CourseUserRelationRepository.save relation db with
  | Resolved _ db' => Resolved relation db'
  | Rejected (QueryFailedError c) db' =>
      if c =? "23505"
      then Rejected (ConflictException CourseUserRelationRepository.alreadySignedUp) db'
      else Resolved relation db'
  | Rejected _ db' => Resolved relation db'
  end.
Proof.
  simpl. unfold CourseUserRelationRepository.addUserToCourse, await, catch, fmap, await.
  destruct (CourseUserRelationRepository.save _ db) as [r db'|e db']; [reflexivity|].
  destruct e as [|m|c|m|m]; try reflexivity.
  simpl. destruct (c =? "23505"); reflexivity.
Qed.

Lemma addUserToCourse_duplicate db courseId userId role :
  existsb (fun r => (cur_courseId r =? courseId) && (cur_userId r =? userId))
          (courseUserRelations db) = true ->
  CourseUserRelationRepository.addUserToCourse courseId userId role db
  = Rejected (ConflictException CourseUserRelationRepository.alreadySignedUp) db.
Proof.
  intros Hdup. rewrite addUserToCourse_outcome.
  unfold CourseUserRelationRepository.save. cbn [cur_courseId cur_userId].
  now rewrite Hdup.
Qed.

(** Any other rejection of [save] is dropped: the caller gets the relation
    as if it had been stored. *)
Lemma addUserToCourse_swallows db db' courseId userId role c :
  CourseUserRelationRepository.save (mkCourseUserRelation courseId userId role) db
  = Rejected (QueryFailedError c) db' ->
  c <> "23505" ->
  CourseUserRelationRepository.addUserToCourse courseId userId role db
  = Resolved (mkCourseUserRelation courseId userId role) db'.
Proof.
  intros Hsave Hc. rewrite addUserToCourse_outcome. cbv zeta. rewrite Hsave.
  apply String.eqb_neq in Hc. now rewrite Hc.
Qed.

(** C8: evaluated for a course and a group that do not exist. The INSERT is
    refused with SQLSTATE 23503, yet [addUserToCourse] resolves to the
    relation and [addUserToGroup] to [true], and nothing has been stored. *)
Theorem addUser_resolves_on_refused_insert :
  CourseUserRelationRepository.save (mkCourseUserRelation "c404" "u1" ROLE_STUDENT)
                                    storeWithoutTarget
  = Rejected (QueryFailedError "23503") storeWithoutTarget
  /\ CourseUserRelationRepository.addUserToCourse "c404" "u1" ROLE_STUDENT storeWithoutTarget
     = Resolved (mkCourseUserRelation "c404" "u1" ROLE_STUDENT) storeWithoutTarget
  /\ UserGroupRelations.save "u1" "g404" 7 storeWithoutTarget
     = Rejected (QueryFailedError "23503") storeWithoutTarget
  /\ GroupRepository.addUserToGroup "c1" "g404" "u1" storeWithoutTarget
     = Resolved true storeWithoutTarget
  /\ courseUserRelations storeWithoutTarget = []
  /\ userGroupRelations storeWithoutTarget = [].
Proof. repeat split; reflexivity. Qed.

(** ** Update messages for membership changes *)

Lemma findOne_remaining (Row : Type) (cond : Row -> bool) (table : list Row) :
  findOne cond (remaining cond table) = None.
Proof.
  apply findOne_none. intros r Hin. unfold remaining in Hin.
  apply filter_In in Hin. destruct Hin as [_ Hc]. now apply negb_true_iff in Hc.
Qed.

(** What [remove] does: after the DELETE the subscriber reloads without an
    id and so describes the first row that is left, if there is one. *)
Lemma remove_run db entity :
  UserGroupRelations.remove entity db
  = match remaining (fun r => Nat.eqb (ugr_id r) (ugr_id entity)) (userGroupRelations db) with
    | [] => Rejected (TypeError "Cannot read properties of undefined (reading 'group')") db
    | other :: others =>
        match findOne (fun g => group_id g =? ugr_groupId other) (groups db) with
        | Some group =>
            Resolved (UserGroupRelations.strip entity)
              (with_updateMessages
                 (updateMessages db
                  ++ [mkUpdateMessage REMOVE USER_GROUP_RELATION (group_courseId group)
                                      (ugr_userId other) (ugr_groupId other)])
                 (with_userGroupRelations (other :: others) db))
        | None => Rejected (TypeError "Cannot read properties of null (reading 'courseId')") db
        end
    end.
Proof.
  unfold UserGroupRelations.remove, UserGroupRelations.transaction, await, put,
    UserGroupRelationSubscriber.afterRemove, UserGroupRelationSubscriber.reloadWithoutId,
    await, get.
  cbn [userGroupRelations groups with_userGroupRelations].
  destruct (remaining _ (userGroupRelations db)) as [|other others]; [reflexivity|].
  destruct (findOne _ (groups db)) as [group|]; reflexivity.
Qed.

(** For a row that is stored and whose group exists, the subscriber writes
    one message of the given type with the course of the group, the user
    and the group. *)
Lemma notify_stored_row db type entity r group :
  findOne (fun r0 => Nat.eqb (ugr_id r0) (ugr_id entity)) (userGroupRelations db) = Some r ->
  findOne (fun g => group_id g =? ugr_groupId r) (groups db) = Some group ->
  UserGroupRelationSubscriber.notify type entity db
  = Resolved tt
      (with_updateMessages
         (updateMessages db
          ++ [mkUpdateMessage type USER_GROUP_RELATION (group_courseId group)
                              (ugr_userId r) (ugr_groupId r)]) db).
Proof.
  intros Hrow Hgroup.
  unfold UserGroupRelationSubscriber.notify,
    UserGroupRelationSubscriber.reloadEntityWithRequiredRelations, await, get.
  now rewrite Hrow, Hgroup.
Qed.

(** A successful insert is answered by one INSERT message with the course
    of the group, the user and the group. *)
Lemma save_appends_insert_message db userId groupId participantId group :
  idsBelowNext db ->
  ~ isMemberOf db groupId userId ->
  findOne (fun g => group_id g =? groupId) (groups db) = Some group ->
  exists r db',
    UserGroupRelations.save userId groupId participantId db = Resolved r db'
    /\ userGroupRelations db' = userGroupRelations db ++ [r]
    /\ ugr_userId r = userId /\ ugr_groupId r = groupId
    /\ updateMessages db' =
       updateMessages db
       ++ [mkUpdateMessage INSERT USER_GROUP_RELATION (group_courseId group) userId groupId].
Proof.
  intros Hids Hno Hgroup.
  assert (Hex : existsb (UserGroupRelations.samePair userId groupId) (userGroupRelations db) = false).
  { destruct (existsb _ _) eqn:E; [|reflexivity]. exfalso. now apply Hno, isMemberOf_existsb. }
  assert (Hg : existsb (fun g => group_id g =? groupId) (groups db) = true).
  { apply existsb_exists. exists group. exact (findOne_some _ _ Hgroup). }
  unfold UserGroupRelations.save, UserGroupRelations.transaction, await,
    UserGroupRelations.insertRow.
  rewrite Hex, Hg. cbn [negb].
  unfold UserGroupRelationSubscriber.afterInsert, UserGroupRelationSubscriber.notify,
    UserGroupRelationSubscriber.reloadEntityWithRequiredRelations, await, get.
  cbn [userGroupRelations groups with_nextId with_userGroupRelations ugr_id].
  set (r := mkUserGroupRelation (nextId db) userId groupId participantId).
  assert (Hfind : findOne (fun r0 => Nat.eqb (ugr_id r0) (nextId db)) (userGroupRelations db ++ [r])
                  = Some r).
  { unfold findOne. clear -Hids. unfold idsBelowNext in Hids.
    induction (userGroupRelations db) as [|r0 rest IH]; simpl.
    - now rewrite Nat.eqb_refl.
    - assert (Hlt : ugr_id r0 < nextId db) by (apply Hids; now left).
      apply Nat.lt_neq, Nat.eqb_neq in Hlt. rewrite Hlt.
      apply IH. intros r1 Hin. apply Hids. now right. }
  rewrite Hfind. cbn [ugr_groupId r]. unfold r at 1. cbn [ugr_groupId].
  rewrite Hgroup. cbn.
  exists r. eexists. split; [reflexivity|]. cbn. repeat split.
Qed.

(** C1: removing a membership writes no message for it. [remove] of the
    entity runs [afterRemove] after the row is gone and without the id: when
    no other row is left the reload finds nothing, assembling the message
    throws and the removal is undone; when another row is left, the removal
    is stored together with a REMOVE message that describes that other row,
    which under the unique index is another membership. [removeUser], the
    removal by criteria, deletes the row, writes no message and is rejected
    with a TypeError. *)
Theorem remove_membership_writes_no_valid_message (db : Db) (entity : UserGroupRelation) :
  let rest := remaining (fun r => Nat.eqb (ugr_id r) (ugr_id entity)) (userGroupRelations db) in
  (rest = [] ->
   UserGroupRelations.remove entity db
   = Rejected (TypeError "Cannot read properties of undefined (reading 'group')") db)
  /\ (forall other others group,
         rest = other :: others ->
         findOne (fun g => group_id g =? ugr_groupId other) (groups db) = Some group ->
         UserGroupRelations.remove entity db
         = Resolved (UserGroupRelations.strip entity)
             (with_updateMessages
                (updateMessages db
                 ++ [mkUpdateMessage REMOVE USER_GROUP_RELATION (group_courseId group)
                                     (ugr_userId other) (ugr_groupId other)])
                (with_userGroupRelations rest db))
         /\ (uniqueMembership db -> In entity (userGroupRelations db) ->
             ~ (ugr_userId other = ugr_userId entity /\ ugr_groupId other = ugr_groupId entity)))
  /\ exists db',
       GroupRepository.removeUser (ugr_groupId entity) (ugr_userId entity) db
       = Rejected (TypeError "Cannot read properties of undefined (reading 'id')") db'
       /\ updateMessages db' = updateMessages db
       /\ ~ isMemberOf db' (ugr_groupId entity) (ugr_userId entity).
Proof.
  intros rest. split; [|split].
  - intros Hrest. rewrite remove_run. fold rest. now rewrite Hrest.
  - intros other others group Hrest Hgroup. split.
    + rewrite remove_run. fold rest. now rewrite Hrest, Hgroup.
    + intros Huniq Hin [Hu Hg].
      assert (Hother : In other rest) by (rewrite Hrest; now left).
      unfold rest, remaining in Hother. apply filter_In in Hother.
      destruct Hother as [Hstored Hid]. apply negb_true_iff, Nat.eqb_neq in Hid.
      apply Hid. f_equal.
      apply (@unique_key_row UserGroupRelation (UserId * GroupId)
               (fun r => (ugr_userId r, ugr_groupId r)) (userGroupRelations db)
               other entity Huniq Hstored Hin).
      now rewrite Hu, Hg.
  - rewrite removeUser_run. eexists. split; [reflexivity|]. split; [reflexivity|].
    intros (r & Hin & Hg & Hu). cbn [userGroupRelations with_userGroupRelations] in Hin.
    unfold remaining in Hin. apply filter_In in Hin. destruct Hin as [_ Hc].
    apply negb_true_iff in Hc.
    assert (UserGroupRelations.samePair (ugr_userId entity) (ugr_groupId entity) r = true)
      by (apply samePair_true; now split).
    congruence.
Qed.

Lemma remove_membership_writes_no_valid_message_witness :
  UserGroupRelations.remove (mkUserGroupRelation 0 "u1" "g1" 7) sampleDb
  = Rejected (TypeError "Cannot read properties of undefined (reading 'group')") sampleDb
  /\ UserGroupRelations.remove (mkUserGroupRelation 0 "u1" "g1" 7) twoMembers
     = Resolved (UserGroupRelationSubscriber.mkRemoved "u1" "g1" 7)
         (with_updateMessages [mkUpdateMessage REMOVE USER_GROUP_RELATION "c1" "u2" "g1"]
            (with_userGroupRelations [mkUserGroupRelation 1 "u2" "g1" 8] twoMembers)).
Proof.
  split.
  - exact (proj1 (remove_membership_writes_no_valid_message sampleDb
                    (mkUserGroupRelation 0 "u1" "g1" 7)) eq_refl).
  - destruct (remove_membership_writes_no_valid_message twoMembers
                (mkUserGroupRelation 0 "u1" "g1" 7)) as (_ & Hother & _).
    exact (proj1 (Hother (mkUserGroupRelation 1 "u2" "g1" 8) [] sampleGroup eq_refl eq_refl)).
Defined.

Example remove_member_of_sampleDb :
  UserGroupRelations.remove (mkUserGroupRelation 0 "u1" "g1" 7) sampleDb
  = Rejected (TypeError "Cannot read properties of undefined (reading 'group')") sampleDb
  /\ GroupRepository.removeUser "g1" "u1" sampleDb
     = Rejected (TypeError "Cannot read properties of undefined (reading 'id')")
                (with_userGroupRelations [] sampleDb)
  /\ updateMessages (with_userGroupRelations [] sampleDb) = [].
Proof. repeat split; reflexivity. Qed.

(** ** Removing registrations *)




Lemma hasId_self r : hasId (reg_id r) r = true.
Proof. apply Nat.eqb_refl. Qed.



(** ** Registering a group member for an assignment *)

Lemma find_map_preserving (Row : Type) (f : Row -> Row) (cond : Row -> bool) (table : list Row) :
  (forall r, cond (f r) = cond r) ->
  find cond (map f table) = option_map f (find cond table).
Proof.
  intros Hf. induction table as [|r table IH]; simpl; [reflexivity|].
  rewrite Hf. destruct (cond r); [reflexivity|exact IH].
Qed.

Lemma filter_map_preserving (Row : Type) (f : Row -> Row) (cond : Row -> bool) (table : list Row) :
  (forall r, cond (f r) = cond r) ->
  filter cond (map f table) = map f (filter cond table).
Proof.
  intros Hf. induction table as [|r table IH]; simpl; [reflexivity|].
  rewrite Hf. destruct (cond r); simpl; now rewrite IH.
Qed.

Lemma unique_id_row (regs : list AssignmentRegistration) (r r' : AssignmentRegistration) :
  NoDup (map reg_id regs) -> In r regs -> In r' regs -> reg_id r = reg_id r' -> r = r'.
Proof.
  induction regs as [|h t IH]; simpl; intros Hnd Hr Hr' Hid; [destruct Hr|].
  inversion Hnd as [|x xs Hnotin Hnd']; subst.
  destruct Hr as [->|Hr], Hr' as [->|Hr'].
  - reflexivity.
  - exfalso. apply Hnotin. rewrite Hid. now apply in_map.
  - exfalso. apply Hnotin. rewrite <- Hid. now apply in_map.
  - now apply IH.
Qed.

(** With distinct ids the unique index is asked about one registration. *)
Lemma member_check (regs : list AssignmentRegistration) (existing : AssignmentRegistration)
      (participantId : nat) :
  NoDup (map reg_id regs) -> In existing regs ->
  existsb (fun r => hasId (reg_id existing) r && isMember participantId r) regs
  = isMember participantId existing.
Proof.
  intros Hnd Hin. destruct (isMember participantId existing) eqn:E.
  - apply existsb_exists. exists existing. now rewrite hasId_self, E.
  - apply existsb_false_iff. intros r Hr.
    destruct (hasId (reg_id existing) r) eqn:Hid; [|reflexivity].
    apply Nat.eqb_eq in Hid.
    now rewrite (@unique_id_row regs r existing Hnd Hr Hin Hid), E.
Qed.

Lemma appendMember_forGroup id participantId assignmentId groupId r :
  forGroup assignmentId groupId (appendMember id participantId r)
  = forGroup assignmentId groupId r.
Proof. unfold appendMember. now destruct (hasId id r). Qed.

Lemma appendMember_hasId id participantId id' r :
  hasId id' (appendMember id participantId r) = hasId id' r.
Proof. unfold appendMember. now destruct (hasId id r). Qed.

Lemma appendMember_id id participantId r : reg_id (appendMember id participantId r) = reg_id r.
Proof. unfold appendMember. now destruct (hasId id r). Qed.

(** What [createRegistration] does, by the state of the store. *)
Lemma createRegistration_cases db assignmentId groupId userId participantId :
  registrationIds db ->
  match findOne (forGroup assignmentId groupId) (registrations db) with
  | None =>
      let registration :=
        mkAssignmentRegistration (nextId db) assignmentId (Some groupId) None
          [mkGroupRegistrationRelation (nextId db) participantId] in
      createRegistration assignmentId groupId userId participantId db
      = Resolved (Some registration)
          (with_nextId (S (nextId db))
             (with_registrations (registrations db ++ [registration]) db))
  | Some existing =>
      if isMember participantId existing
      then createRegistration assignmentId groupId userId participantId db
           = Rejected (QueryFailedError "23505") db
      else createRegistration assignmentId groupId userId participantId db
           = Resolved (Some (addRelation
                               (mkGroupRegistrationRelation (reg_id existing) participantId)
                               existing))
               (with_registrations
                  (map (appendMember (reg_id existing) participantId) (registrations db)) db)
  end.
Proof.
  intros [Hnd _].
  unfold createRegistration, tryGetRegistration, await, get.
  destruct (findOne (forGroup assignmentId groupId) (registrations db)) as [existing|] eqn:F.
  - destruct (findOne_some _ _ F) as [Hin _].
    unfold insertRelation. cbn [grr_assignmentRegistrationId grr_participantId].
    rewrite (@member_check (registrations db) existing participantId Hnd Hin).
    destruct (isMember participantId existing) eqn:E; [reflexivity|].
    cbn [registrations with_registrations]. f_equal.
    change (fun r => if hasId (reg_id existing) r
                     then addRelation (mkGroupRegistrationRelation (reg_id existing) participantId) r
                     else r)
      with (appendMember (reg_id existing) participantId).
    unfold findOne. rewrite find_map_preserving by (intros r; apply appendMember_hasId).
    assert (Hf : find (hasId (reg_id existing)) (registrations db) = Some existing).
    { destruct (find (hasId (reg_id existing)) (registrations db)) as [r|] eqn:G.
      - destruct (find_some _ _ G) as [Hr Hid]. apply Nat.eqb_eq in Hid.
        now rewrite (@unique_id_row (registrations db) r existing Hnd Hr Hin Hid).
      - pose proof (find_none _ _ G existing Hin) as Hc. now rewrite hasId_self in Hc. }
    rewrite Hf. cbn [option_map]. unfold appendMember. now rewrite hasId_self.
  - reflexivity.
Qed.

Lemma filter_nil_of_findOne_none (Row : Type) (cond : Row -> bool) (table : list Row) :
  findOne cond table = None -> filter cond table = [].
Proof.
  intros H. rewrite findOne_none in H.
  induction table as [|r table IH]; simpl; [reflexivity|].
  rewrite (H r (or_introl eq_refl)). apply IH. intros r' Hin. apply H. now right.
Qed.

Lemma forGroup_true assignmentId groupId r :
  forGroup assignmentId groupId r = true ->
  reg_assignmentId r = assignmentId /\ reg_groupId r = Some groupId.
Proof.
  unfold forGroup. rewrite andb_true_iff. intros [Ha Hg].
  apply String.eqb_eq in Ha. destruct (reg_groupId r) as [g|]; [|discriminate].
  apply String.eqb_eq in Hg. now subst.
Qed.

Lemma registrationIds_append db registration :
  registrationIds db -> reg_id registration = nextId db ->
  registrationIds (with_nextId (S (nextId db))
                     (with_registrations (registrations db ++ [registration]) db)).
Proof.
  intros [Hnd Hlt] Hid. split; cbn [registrations nextId with_nextId with_registrations].
  - rewrite map_app. cbn [map]. apply NoDup_app; [exact Hnd|repeat constructor; intros []|].
    intros id Hin [<-|[]]. apply in_map_iff in Hin. destruct Hin as (r & Hr & Hin).
    specialize (Hlt r Hin). lia.
  - intros r Hin. apply in_app_or in Hin. destruct Hin as [Hin|[<-|[]]].
    + specialize (Hlt r Hin). lia.
    + lia.
Qed.

Lemma registrationIds_appendMember db id participantId :
  registrationIds db ->
  registrationIds (with_registrations (map (appendMember id participantId) (registrations db)) db).
Proof.
  intros [Hnd Hlt]. split; cbn [registrations nextId with_registrations].
  - rewrite map_map.
    rewrite (map_ext _ reg_id (fun r => appendMember_id id participantId r)). exact Hnd.
  - intros r Hin. apply in_map_iff in Hin. destruct Hin as (r0 & <- & Hin).
    rewrite appendMember_id. now apply Hlt.
Qed.

(** C3, as the code has it: [createRegistration] keeps at most one
    registration per assignment and group. Without a registration of the
    group it stores one whose only member is the participant; with one, a
    participant who is not yet a member is appended to it, and a participant
    who already is a member makes the insert fail with SQLSTATE 23505 while
    the store stays as it was. *)
Theorem createRegistration_one_per_group
  (db : Db) (assignmentId : AssignmentId) (groupId : GroupId) (userId : UserId)
  (participantId : nat) :
  registrationIds db -> atMostOneRegistration db ->
  let out := createRegistration assignmentId groupId userId participantId db in
  registrationIds (stateOf out)
  /\ atMostOneRegistration (stateOf out)
  /\ match findOne (forGroup assignmentId groupId) (registrations db) with
     | None =>
         exists registration,
           out = Resolved (Some registration) (stateOf out)
           /\ registrations (stateOf out) = registrations db ++ [registration]
           /\ reg_assignmentId registration = assignmentId
           /\ reg_groupId registration = Some groupId
           /\ members registration = [participantId]
     | Some existing =>
         if isMember participantId existing
         then out = Rejected (QueryFailedError "23505") db
         else exists registration,
             out = Resolved (Some registration) (stateOf out)
             /\ reg_id registration = reg_id existing
             /\ members registration = members existing ++ [participantId]
             /\ List.length (registrations (stateOf out)) = List.length (registrations db)
             /\ findOne (forGroup assignmentId groupId) (registrations (stateOf out))
                = Some registration
     end.
Proof.
  intros Hids Hone out.
  pose proof (createRegistration_cases assignmentId groupId userId participantId Hids) as Hcases.
  fold out in Hcases.
  destruct (findOne (forGroup assignmentId groupId) (registrations db)) as [existing|] eqn:F.
  - destruct (isMember participantId existing) eqn:E.
    + rewrite Hcases. cbn [stateOf]. split; [exact Hids|split; [exact Hone|reflexivity]].
    + rewrite Hcases. cbn [stateOf]. split; [|split].
      * now apply registrationIds_appendMember.
      * intros a g. cbn [registrations with_registrations].
        rewrite filter_map_preserving by (intros r; apply appendMember_forGroup).
        rewrite length_map. apply Hone.
      * eexists. split; [reflexivity|]. cbn [registrations with_registrations reg_id addRelation].
        split; [reflexivity|]. split; [|split].
        -- unfold members. cbn [reg_groupRelations addRelation]. rewrite map_app. reflexivity.
        -- apply length_map.
        -- unfold findOne in *.
           rewrite find_map_preserving by (intros r; apply appendMember_forGroup).
           rewrite F. cbn [option_map]. unfold appendMember. now rewrite hasId_self.
  - cbv zeta in Hcases. rewrite Hcases. cbn [stateOf]. split; [|split].
    + now apply registrationIds_append.
    + intros a g. cbn [registrations with_nextId with_registrations].
      rewrite filter_app, length_app. cbn [filter].
      destruct (forGroup a g _) eqn:G; cbn [List.length]; [|specialize (Hone a g); lia].
      apply forGroup_true in G. cbn [reg_assignmentId reg_groupId] in G.
      destruct G as [<- Hg]. injection Hg as <-.
      rewrite (filter_nil_of_findOne_none _ _ F). cbn. lia.
    + eexists. split; [reflexivity|]. cbn [registrations with_nextId with_registrations].
      repeat split.
Qed.

Lemma createRegistration_one_per_group_witness :
  createRegistration "a1" "g1" "u1" 7 emptyDb
  = Resolved (Some (mkAssignmentRegistration 0 "a1" (Some "g1") None
                                             [mkGroupRegistrationRelation 0 7]))
             (stateOf (createRegistration "a1" "g1" "u1" 7 emptyDb)).
Proof.
  assert (Hids : registrationIds emptyDb).
  { split; [constructor|intros r []]. }
  assert (Hone : atMostOneRegistration emptyDb).
  { intros a g. simpl. lia. }
  destruct (@createRegistration_one_per_group emptyDb "a1" "g1" "u1" 7 Hids Hone)
    as (_ & _ & Hcase).
  cbn [findOne find registrations emptyDb] in Hcase.
  destruct Hcase as (registration & Hrun & Hregs & _).
  rewrite Hrun at 1. do 2 f_equal.
  cbn in Hregs. now injection Hregs as <-.
Defined.

(** A member who is registered again is refused, not passed over. *)
Lemma duplicate_member_is_rejected :
  createRegistration "a1" "g1" "u1" 2 (registerAll [1; 2] emptyDb)
  = Rejected (QueryFailedError "23505") (registerAll [1; 2] emptyDb).
Proof. reflexivity. Qed.

Example three_members_one_registration :
  registrations (registerAll [1; 2; 3] emptyDb)
  = [mkAssignmentRegistration 0 "a1" (Some "g1") None
       [mkGroupRegistrationRelation 0 1; mkGroupRegistrationRelation 0 2;
        mkGroupRegistrationRelation 0 3]].
Proof. reflexivity. Qed.

(** ** Generating a group name *)

Lemma find_name_none groups name :
  find (fun g => group_name g =? name) groups = None <-> ~ nameAmong groups name.
Proof.
  split.
  - intros H (g & Hin & Hname). pose proof (find_none _ _ H g Hin) as Hc.
    apply String.eqb_neq in Hc. contradiction.
  - intros H. apply (findOne_none (fun g => group_name g =? name) groups).
    intros g Hin. apply String.eqb_neq. intros Hname. apply H. now exists g.
Qed.

Lemma find_name_some groups name g :
  find (fun g => group_name g =? name) groups = Some g -> nameAmong groups name.
Proof.
  intros H. apply find_some in H. destruct H as [Hin Hname].
  apply String.eqb_eq in Hname. now exists g.
Qed.

(** The loop returns the first free suffix of its range, or nothing when
    every suffix of the range is taken. *)
Lemma scan_spec groups schema steps :
  forall i,
    match GroupRepository.scan groups schema i steps with
    | Some name =>
        exists n, i <= n < i + steps
                  /\ name = (schema ++ toString n)%string
                  /\ ~ nameAmong groups name
                  /\ forall m, i <= m < n -> nameAmong groups (schema ++ toString m)%string
    | None => forall m, i <= m < i + steps -> nameAmong groups (schema ++ toString m)%string
    end.
Proof.
  induction steps as [|steps IH]; intros i; cbn [GroupRepository.scan].
  - intros m Hm. lia.
  - destruct (find _ groups) as [g|] eqn:F.
    + apply find_name_some in F. specialize (IH (S i)).
      destruct (GroupRepository.scan groups schema (S i) steps) as [name|].
      * destruct IH as (n & Hn & Hname & Hfree & Hbelow).
        exists n. repeat split; try lia; try assumption.
        intros m Hm. destruct (Nat.eq_dec m i) as [->|Hne]; [exact F|].
        apply Hbelow. lia.
      * intros m Hm. destruct (Nat.eq_dec m i) as [->|Hne]; [exact F|].
        apply IH. lia.
    + apply find_name_none in F. exists i. repeat split; try lia; try assumption.
Qed.

Lemma tryFindAvailableName_spec groups schema :
  match GroupRepository.tryFindAvailableName groups schema with
  | inr name =>
      exists n, 1 <= n <= GroupRepository.maxSuffix
                /\ name = (schema ++ toString n)%string
                /\ ~ nameAmong groups name
                /\ forall m, 1 <= m < n -> nameAmong groups (schema ++ toString m)%string
  | inl e =>
      e = Error GroupRepository.noAvailableName
      /\ forall m, 1 <= m <= GroupRepository.maxSuffix ->
                   nameAmong groups (schema ++ toString m)%string
  end.
Proof.
  unfold GroupRepository.tryFindAvailableName.
  pose proof (scan_spec groups schema GroupRepository.maxSuffix 1) as H.
  destruct (GroupRepository.scan groups schema 1 GroupRepository.maxSuffix) as [name|].
  - destruct H as (n & Hn & Hrest). exists n. split; [lia|exact Hrest].
  - split; [reflexivity|]. intros m Hm. apply H. lia.
Qed.

(** *** The pattern [%schema%] *)

Lemma like_percent rest s :
  Like.like (Like.percent :: rest) s
  = Like.like rest s
    || match s with [] => false | _ :: s' => Like.like (Like.percent :: rest) s' end.
Proof. destruct s; reflexivity. Qed.

Lemma like_percent_skip rest s : Like.like rest s = true -> Like.like (Like.percent :: rest) s = true.
Proof. intros H. rewrite like_percent, H. reflexivity. Qed.

Lemma like_trailing_percent s : Like.like [Like.percent] s = true.
Proof.
  induction s as [|c s IH]; [reflexivity|].
  rewrite like_percent, IH. apply orb_true_r.
Qed.

(** A pattern without backslash matches itself, whatever follows. *)
Lemma like_prefix pattern :
  existsb (Ascii.eqb Like.backslash) pattern = false ->
  forall s, Like.like (pattern ++ [Like.percent]) (pattern ++ s) = true.
Proof.
  induction pattern as [|c pattern IH]; intros Hno s.
  - apply like_trailing_percent.
  - cbn [existsb] in Hno. apply orb_false_iff in Hno. destruct Hno as [Hc Hno].
    specialize (IH Hno s). cbn [app].
    destruct (Ascii.eqb c Like.percent) eqn:Ep.
    + apply Ascii.eqb_eq in Ep. subst c.
      rewrite like_percent. apply orb_true_iff. right. now apply like_percent_skip.
    + cbn [Like.like]. rewrite Ep.
      destruct (Ascii.eqb c Like.underscore) eqn:Eu; [exact IH|].
      rewrite Ascii.eqb_sym in Hc. rewrite Hc.
      now rewrite Ascii.eqb_refl, IH.
Qed.

Lemma lower_backslash c : Ascii.eqb Like.backslash (Like.lower c) = Ascii.eqb Like.backslash c.
Proof. destruct c as [[] [] [] [] [] [] [] []]; reflexivity. Qed.

Lemma list_ascii_of_string_app (a b : string) :
  list_ascii_of_string (a ++ b) = list_ascii_of_string a ++ list_ascii_of_string b.
Proof. induction a as [|c a IH]; simpl; [reflexivity|now rewrite IH]. Qed.

Lemma ilike_contains_schema schema suffix :
  noBackslash schema ->
  Like.ilike (schema ++ suffix) ("%" ++ schema ++ "%") = true.
Proof.
  intros Hno. unfold Like.ilike.
  change ("%" ++ schema ++ "%")%string with (String Like.percent (schema ++ "%")).
  cbn [list_ascii_of_string map].
  rewrite !list_ascii_of_string_app, !map_app.
  change (Like.lower Like.percent) with Like.percent.
  apply like_percent_skip. apply like_prefix.
  unfold noBackslash in Hno.
  induction (list_ascii_of_string schema) as [|c l IH]; [reflexivity|].
  cbn [existsb map] in *. apply orb_false_iff in Hno. destruct Hno as [Hc Hl].
  now rewrite lower_backslash, Hc, IH.
Qed.

(** *** The groups the query fetches *)

Lemma In_insertByCreatedAt g x sorted :
  In g (GroupRepository.insertByCreatedAt x sorted) <-> g = x \/ In g sorted.
Proof.
  induction sorted as [|h t IH]; simpl.
  - intuition congruence.
  - destruct (Nat.leb (group_createdAt h) (group_createdAt x)); simpl.
    + intuition congruence.
    + rewrite IH. intuition congruence.
Qed.

Lemma In_orderByCreatedAtDesc g gs :
  In g (GroupRepository.orderByCreatedAtDesc gs) <-> In g gs.
Proof.
  unfold GroupRepository.orderByCreatedAtDesc.
  induction gs as [|h t IH]; simpl; [reflexivity|].
  rewrite In_insertByCreatedAt, IH. intuition congruence.
Qed.

(** For a schema without backslash the fetched groups hold every group of
    the course that is named schema + suffix. *)
Lemma fetched_names db courseId schema suffix :
  noBackslash schema ->
  nameAmong (GroupRepository.groupsForSchema courseId schema db) (schema ++ suffix)%string
  <-> nameInCourse db courseId (schema ++ suffix)%string.
Proof.
  intros Hno. unfold nameAmong, nameInCourse, GroupRepository.groupsForSchema. split.
  - intros (g & Hin & Hname). apply In_orderByCreatedAtDesc, filter_In in Hin.
    destruct Hin as [Hin Hc]. apply andb_true_iff in Hc. destruct Hc as [Hc _].
    apply String.eqb_eq in Hc. now exists g.
  - intros (g & Hin & Hc & Hname). exists g. split; [|exact Hname].
    apply In_orderByCreatedAtDesc, filter_In. split; [exact Hin|].
    apply andb_true_iff. split; [now apply String.eqb_eq|].
    rewrite Hname. now apply ilike_contains_schema.
Qed.

(** *** The generated name *)

Lemma getAvailableGroupNameForSchema_cases db courseId schema :
  noBackslash schema ->
  (exists n,
      1 <= n <= GroupRepository.maxSuffix
      /\ GroupRepository.getAvailableGroupNameForSchema courseId schema db
         = Resolved (schema ++ toString n)%string db
      /\ ~ nameInCourse db courseId (schema ++ toString n)%string
      /\ forall m, 1 <= m < n -> nameInCourse db courseId (schema ++ toString m)%string)
  \/ (GroupRepository.getAvailableGroupNameForSchema courseId schema db
      = Rejected (Error GroupRepository.noAvailableName) db
      /\ forall m, 1 <= m <= GroupRepository.maxSuffix ->
                   nameInCourse db courseId (schema ++ toString m)%string).
Proof.
  intros Hno.
  unfold GroupRepository.getAvailableGroupNameForSchema, await, get.
  pose proof (tryFindAvailableName_spec
                (GroupRepository.groupsForSchema courseId schema db) schema) as H.
  destruct (GroupRepository.tryFindAvailableName _ schema) as [e|name].
  - right. destruct H as [-> Hall]. split; [reflexivity|].
    intros m Hm. apply (fetched_names db courseId (toString m) Hno). now apply Hall.
  - left. destruct H as (n & Hn & -> & Hfree & Hbelow). exists n.
    split; [exact Hn|]. split; [reflexivity|]. split.
    + intros Hin. apply Hfree. now apply (fetched_names db courseId (toString n) Hno).
    + intros m Hm. apply (fetched_names db courseId (toString m) Hno). now apply Hbelow.
Qed.

Lemma append_inj_r (a b c : string) : (a ++ b = a ++ c)%string -> b = c.
Proof. induction a as [|x a IH]; simpl; intros H; [exact H|]. injection H as H. now apply IH. Qed.

(** C4, as the code has it: for a schema without backslash the generated
    name is schema + N for the smallest N from 1 to 9999 that no group of
    the course is named after; when all of them are taken the call is
    rejected with the plain Error "No available group name."; a course
    whose only group is schema + 1 gets schema + 2. *)
Theorem generated_name_is_first_free (db : Db) (courseId : CourseId) (schema : string) :
  noBackslash schema ->
  toString GroupRepository.maxSuffix = "9999"
  /\ (forall n,
         1 <= n <= GroupRepository.maxSuffix ->
         ~ nameInCourse db courseId (schema ++ toString n)%string ->
         (forall m, 1 <= m < n -> nameInCourse db courseId (schema ++ toString m)%string) ->
         GroupRepository.getAvailableGroupNameForSchema courseId schema db
         = Resolved (schema ++ toString n)%string db)
  /\ ((forall m, 1 <= m <= GroupRepository.maxSuffix ->
                 nameInCourse db courseId (schema ++ toString m)%string) ->
      GroupRepository.getAvailableGroupNameForSchema courseId schema db
      = Rejected (Error "No available group name.") db)
  /\ (forall g,
         groups db = [g] -> group_courseId g = courseId ->
         group_name g = (schema ++ "1")%string ->
         GroupRepository.getAvailableGroupNameForSchema courseId schema db
         = Resolved (schema ++ "2")%string db).
Proof.
  intros Hno. split; [vm_compute; reflexivity|].
  pose proof (getAvailableGroupNameForSchema_cases db courseId Hno) as Hcases.
  assert (Hfirst : forall n,
             1 <= n <= GroupRepository.maxSuffix ->
             ~ nameInCourse db courseId (schema ++ toString n)%string ->
             (forall m, 1 <= m < n -> nameInCourse db courseId (schema ++ toString m)%string) ->
             GroupRepository.getAvailableGroupNameForSchema courseId schema db
             = Resolved (schema ++ toString n)%string db).
  { intros n Hn Hfree Hbelow.
    destruct Hcases as [(n' & Hn' & Hrun & Hfree' & Hbelow')|[_ Hall]].
    - destruct (Nat.lt_trichotomy n n') as [Hlt|[->|Hgt]].
      + exfalso. apply Hfree, Hbelow'. lia.
      + exact Hrun.
      + exfalso. apply Hfree', Hbelow. lia.
    - exfalso. now apply Hfree, Hall. }
  split; [exact Hfirst|]. split.
  - intros Hall. destruct Hcases as [(n & Hn & _ & Hfree & _)|[Hrun _]]; [|exact Hrun].
    exfalso. now apply Hfree, Hall.
  - intros g Hgroups Hcourse Hname.
    assert (Hmax : 2 <= GroupRepository.maxSuffix) by (apply Nat.leb_le; vm_compute; reflexivity).
    apply (Hfirst 2); [lia| |].
    + intros (g' & Hin & _ & Hname'). rewrite Hgroups in Hin. destruct Hin as [<-|[]].
      rewrite Hname in Hname'. apply append_inj_r in Hname'. discriminate.
    + intros m Hm. assert (m = 1) as -> by lia.
      exists g. rewrite Hgroups. repeat split; [now left|assumption|assumption].
Qed.

Lemma generated_name_is_first_free_witness :
  GroupRepository.getAvailableGroupNameForSchema "c1" "Team" sampleDb
  = Resolved "Team2" sampleDb.
Proof.
  assert (Hno : noBackslash "Team") by reflexivity.
  destruct (generated_name_is_first_free sampleDb "c1" Hno) as (_ & _ & _ & Honly).
  exact (Honly sampleGroup eq_refl eq_refl eq_refl).
Defined.

(** With Team1 .. Team9999 taken the call is rejected with a plain Error
    whose message does not mention 9999; and for the schema [T\], whose
    backslash escapes the closing [%] of the pattern, the name of an
    existing group is generated. *)
Lemma exhaustion_is_a_plain_error :
  GroupRepository.getAvailableGroupNameForSchema "c1" "Team" fullCourse
  = Rejected (Error "No available group name.") fullCourse
  /\ index 0 "9999" "No available group name." = None
  /\ GroupRepository.getAvailableGroupNameForSchema "c1" "T\" backslashCourse
     = Resolved "T\1" backslashCourse
  /\ nameInCourse backslashCourse "c1" "T\1".
Proof.
  assert (Hall : forall m, 1 <= m <= GroupRepository.maxSuffix ->
                           nameInCourse fullCourse "c1" ("Team" ++ toString m)%string).
  { intros m Hm.
    exists (mkGroup ("g" ++ toString m)%string "c1" ("Team" ++ toString m)%string None false m).
    split; [|split; reflexivity].
    change (groups fullCourse) with teamGroups. unfold teamGroups.
    apply in_map_iff. exists m. split; [reflexivity|]. apply in_seq. lia. }
  split; [|split; [reflexivity|split; [reflexivity|]]].
  - assert (Hno : noBackslash "Team") by reflexivity.
    destruct (getAvailableGroupNameForSchema_cases fullCourse "c1" Hno)
      as [(n & Hn & _ & Hfree & _)|[Hrun _]].
    + exfalso. apply Hfree. now apply Hall.
    + exact Hrun.
  - exists (mkGroup "g1" "c1" "T\1" None false 0). repeat split. now left.
Qed.

(** * Further properties of the repositories *)

(** ** The subscriber on stored rows *)

(** X1: for an entity whose row is stored and whose group exists,
    [afterInsert] and [afterUpdate] append one message each, of their type,
    with the course of the group and the user and group of the stored row
    (not of the entity handed over); when the group of the stored row is
    missing, assembling the message throws and nothing is written. *)
Theorem subscriber_message_describes_stored_row
  (db : Db) (entity r : UserGroupRelation) :
  findOne (fun r0 => Nat.eqb (ugr_id r0) (ugr_id entity)) (userGroupRelations db) = Some r ->
  (forall group,
      findOne (fun g => group_id g =? ugr_groupId r) (groups db) = Some group ->
      UserGroupRelationSubscriber.afterInsert entity db
      = Resolved tt
          (with_updateMessages
             (updateMessages db
              ++ [mkUpdateMessage INSERT USER_GROUP_RELATION (group_courseId group)
                                  (ugr_userId r) (ugr_groupId r)]) db)
      /\ UserGroupRelationSubscriber.afterUpdate entity db
         = Resolved tt
             (with_updateMessages
                (updateMessages db
                 ++ [mkUpdateMessage UPDATE USER_GROUP_RELATION (group_courseId group)
                                     (ugr_userId r) (ugr_groupId r)]) db))
  /\ (findOne (fun g => group_id g =? ugr_groupId r) (groups db) = None ->
      UserGroupRelationSubscriber.afterUpdate entity db
      = Rejected (TypeError "Cannot read properties of null (reading 'courseId')") db).
Proof.
  intros Hrow. split.
  - intros group Hgroup. split.
    + exact (@notify_stored_row db INSERT entity r group Hrow Hgroup).
    + exact (@notify_stored_row db UPDATE entity r group Hrow Hgroup).
  - intros Hnone.
    unfold UserGroupRelationSubscriber.afterUpdate, UserGroupRelationSubscriber.notify,
      UserGroupRelationSubscriber.reloadEntityWithRequiredRelations, await, get.
    now rewrite Hrow, Hnone.
Qed.

Lemma subscriber_message_describes_stored_row_witness :
  UserGroupRelationSubscriber.afterUpdate (mkUserGroupRelation 0 "u9" "g9" 9) sampleDb
  = Resolved tt
      (with_updateMessages [mkUpdateMessage UPDATE USER_GROUP_RELATION "c1" "u1" "g1"] sampleDb).
Proof.
  destruct (@subscriber_message_describes_stored_row sampleDb
              (mkUserGroupRelation 0 "u9" "g9" 9) (mkUserGroupRelation 0 "u1" "g1" 7) eq_refl)
    as [Hstored _].
  exact (proj2 (Hstored sampleGroup eq_refl)).
Defined.

(** ** Adding a user to a group and removing the user again *)

Lemma find_fresh_id (rows : list UserGroupRelation) (r : UserGroupRelation) :
  (forall r0, In r0 rows -> ugr_id r0 < ugr_id r) ->
  findOne (fun r0 => Nat.eqb (ugr_id r0) (ugr_id r)) (rows ++ [r]) = Some r.
Proof.
  unfold findOne. induction rows as [|r0 rest IH]; simpl; intros Hlt.
  - now rewrite Nat.eqb_refl.
  - assert (H0 : ugr_id r0 < ugr_id r) by (apply Hlt; now left).
    apply Nat.lt_neq, Nat.eqb_neq in H0. rewrite H0.
    apply IH. intros r1 Hin. apply Hlt. now right.
Qed.

Lemma save_new_member db userId groupId participantId group :
  idsBelowNext db ->
  ~ isMemberOf db groupId userId ->
  findOne (fun g => group_id g =? groupId) (groups db) = Some group ->
  UserGroupRelations.save userId groupId participantId db
  = Resolved (mkUserGroupRelation (nextId db) userId groupId participantId)
             (joined db (group_courseId group) userId groupId participantId).
Proof.
  intros Hids Hno Hgroup.
  assert (Hex : existsb (UserGroupRelations.samePair userId groupId) (userGroupRelations db) = false).
  { destruct (existsb _ _) eqn:E; [|reflexivity]. exfalso. now apply Hno, isMemberOf_existsb. }
  assert (Hg : existsb (fun g => group_id g =? groupId) (groups db) = true).
  { apply existsb_exists. exists group. exact (findOne_some _ _ Hgroup). }
  unfold UserGroupRelations.save, UserGroupRelations.transaction, await,
    UserGroupRelations.insertRow.
  rewrite Hex, Hg. cbn [negb].
  set (r := mkUserGroupRelation (nextId db) userId groupId participantId).
  set (db1 := with_nextId _ _).
  assert (Hrow : findOne (fun r0 => Nat.eqb (ugr_id r0) (ugr_id r)) (userGroupRelations db1)
                 = Some r).
  { apply find_fresh_id. exact Hids. }
  assert (Hgroup1 : findOne (fun g => group_id g =? ugr_groupId r) (groups db1) = Some group)
    by exact Hgroup.
  unfold UserGroupRelationSubscriber.afterInsert.
  rewrite (@notify_stored_row db1 INSERT r r group Hrow Hgroup1). reflexivity.
Qed.

(** X2: for a participant of the course who is not yet a member of an
    existing group, [addUserToGroup] resolves to [true], stores one new
    membership row with the user, the group and the id of the participant,
    and one INSERT message with the course of the group; the pair stays
    unique and the user is a member afterwards. *)
Theorem addUserToGroup_stores_membership
  (db : Db) (courseId : CourseId) (groupId : GroupId) (userId : UserId)
  (participant : ParticipantEntity) (group : Group) :
  findOne (fun p => (participant_courseId p =? courseId) && (participant_userId p =? userId))
          (participants db) = Some participant ->
  findOne (fun g => group_id g =? groupId) (groups db) = Some group ->
  idsBelowNext db ->
  uniqueMembership db ->
  ~ isMemberOf db groupId userId ->
  let db' := joined db (group_courseId group) userId groupId (participant_id participant) in
  GroupRepository.addUserToGroup courseId groupId userId db = Resolved true db'
  /\ isMemberOf db' groupId userId
  /\ uniqueMembership db'
  /\ idsBelowNext db'.
Proof.
  intros Hp Hgroup Hids Huniq Hno db'. split; [|split; [|split]].
  - unfold GroupRepository.addUserToGroup, GroupRepository.getParticipant, findOneOrFail, await.
    rewrite Hp. unfold catch, fmap, await.
    now rewrite (save_new_member (participant_id participant) Hids Hno Hgroup).
  - exists (mkUserGroupRelation (nextId db) userId groupId (participant_id participant)).
    split; [|split; reflexivity].
    cbn. apply in_or_app. right. now left.
  - unfold uniqueMembership in *. cbn [userGroupRelations db' joined with_updateMessages
      with_nextId with_userGroupRelations].
    rewrite map_app. cbn [map ugr_userId ugr_groupId].
    apply NoDup_app; [exact Huniq|repeat constructor; intros []|].
    intros pair Hin [<-|[]]. apply in_map_iff in Hin. destruct Hin as (r & Hpair & Hin).
    injection Hpair as Hu Hg. apply Hno. now exists r.
  - intros r Hin. cbn in Hin. cbn [nextId db' joined with_updateMessages with_nextId].
    apply in_app_or in Hin. destruct Hin as [Hin|[<-|[]]].
    + specialize (Hids r Hin). lia.
    + cbn. lia.
Qed.

Lemma addUserToGroup_stores_membership_witness :
  GroupRepository.addUserToGroup "c1" "g1" "u1" storeWithoutTarget
  = Resolved true (joined storeWithoutTarget "c1" "u1" "g1" 7).
Proof.
  assert (Hids : idsBelowNext storeWithoutTarget) by (intros r []).
  assert (Huniq : uniqueMembership storeWithoutTarget) by constructor.
  assert (Hno : ~ isMemberOf storeWithoutTarget "g1" "u1") by (intros (r & [] & _)).
  exact (proj1 (@addUserToGroup_stores_membership storeWithoutTarget "c1" "g1" "u1"
                  (mkParticipant 7 "c1" "u1" STUDENT) sampleGroup
                  eq_refl eq_refl Hids Huniq Hno)).
Defined.

Lemma isMemberOf_joined db courseId userId groupId participantId :
  isMemberOf (joined db courseId userId groupId participantId) groupId userId.
Proof.
  exists (mkUserGroupRelation (nextId db) userId groupId participantId).
  split; [|split; reflexivity]. cbn. apply in_or_app. right. now left.
Qed.

Lemma filter_none (Row : Type) (cond : Row -> bool) (table : list Row) :
  (forall r, In r table -> cond r = false) -> filter cond table = [].
Proof.
  induction table as [|r table IH]; simpl; intros H; [reflexivity|].
  rewrite (H r (or_introl eq_refl)). apply IH. intros r' Hin. apply H. now right.
Qed.

(** X3: after a user has been added to a group, adding the same user again
    is rejected with the ConflictException and changes nothing; [removeUser]
    then deletes the row, so that the membership rows are as they were
    before the user was added, but is rejected with the TypeError of the
    subscriber; the INSERT message stays and no further message is
    written. *)
Theorem add_again_conflicts_and_remove_restores
  (db : Db) (courseId : CourseId) (groupId : GroupId) (userId : UserId)
  (participant : ParticipantEntity) (group : Group) :
  findOne (fun p => (participant_courseId p =? courseId) && (participant_userId p =? userId))
          (participants db) = Some participant ->
  ~ isMemberOf db groupId userId ->
  let db' := joined db (group_courseId group) userId groupId (participant_id participant) in
  GroupRepository.addUserToGroup courseId groupId userId db'
  = Rejected (ConflictException GroupRepository.alreadyMember) db'
  /\ exists db'',
      GroupRepository.removeUser groupId userId db'
      = Rejected (TypeError "Cannot read properties of undefined (reading 'id')") db''
      /\ userGroupRelations db'' = userGroupRelations db
      /\ updateMessages db'' = updateMessages db'
      /\ ~ isMemberOf db'' groupId userId.
Proof.
  intros Hp Hno db'. split.
  - apply addUserToGroup_duplicate with (participant := participant); [exact Hp|].
    apply isMemberOf_joined.
  - pose proof (not_member_no_match Hno) as Hall.
    set (cond := UserGroupRelations.samePair userId groupId) in *.
    set (r := mkUserGroupRelation (nextId db) userId groupId (participant_id participant)).
    assert (Hr : cond r = true) by (apply samePair_true; now split).
    rewrite removeUser_run. fold cond.
    assert (Hrows : userGroupRelations db' = userGroupRelations db ++ [r]) by reflexivity.
    rewrite Hrows.
    assert (Hrem : remaining cond (userGroupRelations db ++ [r]) = userGroupRelations db).
    { unfold remaining. rewrite filter_app. cbn. rewrite Hr. cbn. rewrite app_nil_r.
      apply (remaining_all cond _ Hall). }
    rewrite Hrem. eexists. split; [reflexivity|].
    split; [reflexivity|]. split; [reflexivity|].
    intros (r0 & Hin & Hg & Hu). apply Hno. now exists r0.
Qed.

Lemma add_again_conflicts_and_remove_restores_witness :
  GroupRepository.addUserToGroup "c1" "g1" "u1" (joined storeWithoutTarget "c1" "u1" "g1" 7)
  = Rejected (ConflictException "This user is already a member of this group.")
             (joined storeWithoutTarget "c1" "u1" "g1" 7)
  /\ exists db'',
      GroupRepository.removeUser "g1" "u1" (joined storeWithoutTarget "c1" "u1" "g1" 7)
      = Rejected (TypeError "Cannot read properties of undefined (reading 'id')") db''
      /\ userGroupRelations db'' = [].
Proof.
  assert (Hno : ~ isMemberOf storeWithoutTarget "g1" "u1") by (intros (r & [] & _)).
  destruct (@add_again_conflicts_and_remove_restores storeWithoutTarget "c1" "g1" "u1"
              (mkParticipant 7 "c1" "u1" STUDENT) sampleGroup eq_refl Hno)
    as (Hagain & db'' & Hrun & Hrows & _).
  split; [exact Hagain|]. exists db''. split; [exact Hrun|exact Hrows].
Defined.

(** X4: [removeUser] is rejected with the TypeError of the subscriber on
    every call; the store it leaves holds every membership row of another
    pair and none of the given pair, and the update messages are as they
    were; a second call is rejected in the same way and changes nothing. *)
Theorem removeUser_only_that_pair (db : Db) (groupId : GroupId) (userId : UserId) :
  let db' := stateOf (GroupRepository.removeUser groupId userId db) in
  GroupRepository.removeUser groupId userId db
  = Rejected (TypeError "Cannot read properties of undefined (reading 'id')") db'
  /\ (forall r, In r (userGroupRelations db') <->
                In r (userGroupRelations db)
                /\ ~ (ugr_groupId r = groupId /\ ugr_userId r = userId))
  /\ ~ isMemberOf db' groupId userId
  /\ updateMessages db' = updateMessages db
  /\ GroupRepository.removeUser groupId userId db'
     = Rejected (TypeError "Cannot read properties of undefined (reading 'id')") db'.
Proof.
  cbn zeta. rewrite !removeUser_run. cbn [stateOf].
  set (cond := UserGroupRelations.samePair userId groupId).
  cbn [userGroupRelations with_userGroupRelations].
  assert (Hin : forall r, In r (remaining cond (userGroupRelations db)) <->
                          In r (userGroupRelations db)
                          /\ ~ (ugr_groupId r = groupId /\ ugr_userId r = userId)).
  { intros r. unfold remaining. rewrite filter_In, negb_true_iff. split.
    - intros [Hr Hc]. split; [exact Hr|]. intros [Hg Hu].
      assert (cond r = true) by (apply samePair_true; now split). congruence.
    - intros [Hr Hn]. split; [exact Hr|].
      destruct (cond r) eqn:E; [|reflexivity]. apply samePair_true in E. tauto. }
  assert (Hall : forall r, In r (remaining cond (userGroupRelations db)) -> cond r = false).
  { intros r Hr. unfold remaining in Hr. apply filter_In in Hr.
    now apply negb_true_iff. }
  split; [reflexivity|]. split; [exact Hin|]. split; [|split; [reflexivity|]].
  - intros (r & Hr & Hg & Hu). apply Hin in Hr. tauto.
  - now rewrite (remaining_all cond _ Hall).
Qed.

Lemma removeUser_only_that_pair_witness :
  GroupRepository.removeUser "g1" "u1" (stateOf (GroupRepository.removeUser "g1" "u1" sampleDb))
  = Rejected (TypeError "Cannot read properties of undefined (reading 'id')")
             (stateOf (GroupRepository.removeUser "g1" "u1" sampleDb))
  /\ ~ isMemberOf (stateOf (GroupRepository.removeUser "g1" "u1" sampleDb)) "g1" "u1".
Proof.
  destruct (removeUser_only_that_pair sampleDb "g1" "u1") as (_ & _ & Hno & _ & Hagain).
  split; [exact Hagain|exact Hno].
Defined.

(** ** Deleted rows cannot be loaded *)

(** X5: after [deleteGroup] the group cannot be loaded by its id and every
    group with another id is still stored; a second [deleteGroup] resolves
    to [false] and changes nothing. The same holds for [deleteCourse] and
    [getCourseById]. *)
Theorem deleted_rows_are_gone (db : Db) (groupId : GroupId) (courseId : CourseId) :
  (let db' := stateOf (GroupRepository.deleteGroup groupId db) in
   GroupRepository.getGroupById groupId db' = Rejected EntityNotFoundError db'
   /\ (forall g, group_id g <> groupId -> (In g (groups db') <-> In g (groups db)))
   /\ GroupRepository.deleteGroup groupId db' = Resolved false db')
  /\
  (let db' := stateOf (CourseRepository.deleteCourse courseId db) in
   Courses.getCourseById courseId db' = Rejected EntityNotFoundError db'
   /\ (forall c, course_id c <> courseId -> (In c (courses db') <-> In c (courses db)))
   /\ CourseRepository.deleteCourse courseId db' = Resolved false db').
Proof.
  split; cbn zeta.
  - unfold GroupRepository.deleteGroup. cbn [stateOf].
    set (cond := fun g => group_id g =? groupId).
    assert (Hall : forall g, In g (remaining cond (groups db)) -> cond g = false).
    { intros g Hg. unfold remaining in Hg. apply filter_In in Hg. now apply negb_true_iff. }
    split; [|split].
    + unfold GroupRepository.getGroupById, findOneOrFail.
      cbn [groups with_groups]. fold cond. now rewrite findOne_remaining.
    + intros g Hne. cbn [groups with_groups]. unfold remaining.
      rewrite filter_In, negb_true_iff. unfold cond.
      apply String.eqb_neq in Hne. tauto.
    + cbn [groups with_groups].
      rewrite (proj2 (affected_0_iff cond _) Hall), (remaining_all cond _ Hall).
      reflexivity.
  - unfold CourseRepository.deleteCourse. cbn [stateOf].
    set (cond := fun c => course_id c =? courseId).
    assert (Hall : forall c, In c (remaining cond (courses db)) -> cond c = false).
    { intros c Hc. unfold remaining in Hc. apply filter_In in Hc. now apply negb_true_iff. }
    split; [|split].
    + unfold Courses.getCourseById, findOneOrFail.
      cbn [courses with_courses]. fold cond. now rewrite findOne_remaining.
    + intros c Hne. cbn [courses with_courses]. unfold remaining.
      rewrite filter_In, negb_true_iff. unfold cond.
      apply String.eqb_neq in Hne. tauto.
    + cbn [courses with_courses].
      rewrite (proj2 (affected_0_iff cond _) Hall), (remaining_all cond _ Hall).
      reflexivity.
Qed.

Lemma deleted_rows_are_gone_witness :
  GroupRepository.getGroupById "g1" (stateOf (GroupRepository.deleteGroup "g1" sampleDb))
  = Rejected EntityNotFoundError (stateOf (GroupRepository.deleteGroup "g1" sampleDb))
  /\ In sampleCourse (courses (stateOf (CourseRepository.deleteCourse "c2" sampleDb))).
Proof.
  destruct (deleted_rows_are_gone sampleDb "g1" "c2") as [(Hgone & _) (_ & Hkept & _)].
  split; [exact Hgone|].
  apply (Hkept sampleCourse); [discriminate|now left].
Defined.

(** ** Signing a user up to a course *)

(** X6: for an existing course and a user who is not yet signed up,
    [addUserToCourse] resolves to the relation with the given course, user
    and role and stores it as the last row; signing the same user up again,
    with whatever role, is rejected with the ConflictException and changes
    nothing. *)
Theorem addUserToCourse_once
  (db : Db) (courseId : CourseId) (userId : UserId) (role role' : UserRoles) :
  existsb (fun c => course_id c =? courseId) (courses db) = true ->
  existsb (fun r => (cur_courseId r =? courseId) && (cur_userId r =? userId))
          (courseUserRelations db) = false ->
  let relation := mkCourseUserRelation courseId userId role in
  let db' := with_courseUserRelations (courseUserRelations db ++ [relation]) db in
  CourseUserRelationRepository.addUserToCourse courseId userId role db = Resolved relation db'
  /\ CourseUserRelationRepository.addUserToCourse courseId userId role' db'
     = Rejected (ConflictException CourseUserRelationRepository.alreadySignedUp) db'.
Proof.
  intros Hcourse Hnew relation db'. split.
  - rewrite addUserToCourse_outcome. cbv zeta.
    unfold CourseUserRelationRepository.save. cbn [cur_courseId cur_userId].
    now rewrite Hnew, Hcourse.
  - apply addUserToCourse_duplicate.
    cbn [courseUserRelations db' with_courseUserRelations].
    rewrite existsb_app. cbn. now rewrite !String.eqb_refl, orb_true_r.
Qed.

Lemma addUserToCourse_once_witness :
  CourseUserRelationRepository.addUserToCourse "c1" "u1" ROLE_STUDENT sampleDb
  = Resolved (mkCourseUserRelation "c1" "u1" ROLE_STUDENT)
             (with_courseUserRelations [mkCourseUserRelation "c1" "u1" ROLE_STUDENT] sampleDb).
Proof.
  exact (proj1 (@addUserToCourse_once sampleDb "c1" "u1" ROLE_STUDENT ROLE_TUTOR
                  eq_refl eq_refl)).
Defined.

(** ** Updating a course *)

(** X7: [updateCourse] on a stored course resolves to the course with the
    shortname, semester, title, link and isClosed of the DTO and the id,
    config and participants it had, whatever id the DTO carries. The stored
    row gets the same values, except that a link that is [undefined] in the
    DTO leaves the stored link as it was; this row is what [getCourseById]
    loads afterwards, and no other table changes. For an id that no course
    has it is rejected with EntityNotFoundError and changes nothing. *)
Theorem updateCourse_overwrites_fields
  (db : Db) (courseId : CourseId) (courseDto : CourseRepository.CourseDto) :
  (forall course,
      findOne (fun c => course_id c =? courseId) (courses db) = Some course ->
      let updated :=
        mkCourse courseId
                 (CourseRepository.dto_shortname courseDto)
                 (CourseRepository.dto_semester courseDto)
                 (CourseRepository.dto_title courseDto)
                 (CourseRepository.dto_link courseDto)
                 (CourseRepository.dto_isClosed courseDto)
                 (course_config course) (course_participants course) in
      let stored :=
        mkCourse courseId
                 (CourseRepository.dto_shortname courseDto)
                 (CourseRepository.dto_semester courseDto)
                 (CourseRepository.dto_title courseDto)
                 (match CourseRepository.dto_link courseDto with
                  | undefined => course_link course
                  | link => link
                  end)
                 (CourseRepository.dto_isClosed courseDto)
                 (course_config course) (course_participants course) in
      exists db',
        Courses.updateCourse courseId courseDto db = Resolved updated db'
        /\ db' = with_courses
                   (map (fun c => if course_id c =? courseId
                                  then Courses.storedAfterSave c updated else c)
                        (courses db)) db
        /\ Courses.getCourseById courseId db' = Resolved stored db')
  /\ (findOne (fun c => course_id c =? courseId) (courses db) = None ->
      Courses.updateCourse courseId courseDto db = Rejected EntityNotFoundError db).
Proof.
  split.
  - intros course Hfind updated stored.
    destruct (findOne_some _ _ Hfind) as [_ Hid]. apply String.eqb_eq in Hid.
    unfold Courses.updateCourse, Courses.getCourseById, findOneOrFail, await.
    rewrite Hfind. unfold Courses.saveLoaded, await, put, resolve. cbn [course_id].
    rewrite Hid. fold updated. eexists. split; [reflexivity|]. split; [reflexivity|].
    cbn [courses with_courses]. unfold findOne.
    rewrite (find_map_preserving
               (fun c => if course_id c =? courseId then Courses.storedAfterSave c updated else c)
               (fun c => course_id c =? courseId)).
    + unfold findOne in Hfind. rewrite Hfind. cbn [option_map].
      rewrite <- Hid at 1. rewrite String.eqb_refl. reflexivity.
    + intros c. destruct (course_id c =? courseId) eqn:E; [|exact E].
      cbn. apply String.eqb_refl.
  - intros Hnone. unfold Courses.updateCourse, Courses.getCourseById, findOneOrFail, await.
    now rewrite Hnone.
Qed.

Lemma updateCourse_overwrites_fields_witness :
  (exists db',
      Courses.updateCourse "c1"
        (CourseRepository.mkCourseDto "other" "java" "sose20" "Java Lab" undefined true)
        linkedCourseDb
      = Resolved (mkCourse "c1" "java" "sose20" "Java Lab" undefined true None []) db'
      /\ Courses.getCourseById "c1" db'
         = Resolved (mkCourse "c1" "java" "sose20" "Java Lab" (value "https://lab") true None [])
                    db')
  /\ Courses.updateCourse "c404"
       (CourseRepository.mkCourseDto "c404" "java" "sose20" "Java Lab" undefined true) sampleDb
     = Rejected EntityNotFoundError sampleDb.
Proof.
  destruct (updateCourse_overwrites_fields linkedCourseDb "c1"
              (CourseRepository.mkCourseDto "other" "java" "sose20" "Java Lab" undefined true))
    as [Hstored _].
  destruct (Hstored (mkCourse "c1" "java" "wise1920" "Programming Lab" (value "https://lab")
                              false None []) eq_refl) as (db' & Hrun & _ & Hload).
  destruct (updateCourse_overwrites_fields sampleDb "c404"
              (CourseRepository.mkCourseDto "c404" "java" "sose20" "Java Lab" undefined true))
    as [_ Hmissing].
  split; [|exact (Hmissing eq_refl)].
  exists db'. split; [exact Hrun|exact Hload].
Defined.

(** ** Creating a course *)

Lemma findOne_app_none (Row : Type) (cond : Row -> bool) (old new : list Row) :
  (forall r, In r old -> cond r = false) ->
  findOne cond (old ++ new) = findOne cond new.
Proof.
  unfold findOne. induction old as [|r old IH]; simpl; intros H; [reflexivity|].
  rewrite (H r (or_introl eq_refl)). apply IH. intros r' Hin. apply H. now right.
Qed.

Lemma createCourse_run users courseDto config db :
  let id := CourseRepository.dto_id (Courses.create_dto courseDto) in
  let ps := lecturerParticipants users courseDto in
  let course :=
    Courses.withParticipants ps
      (CourseRepository.createInsertableEntity (Courses.create_dto courseDto) config) in
  (forall c, In c (courses db) -> course_id c <> id) ->
  Courses.createCourse users courseDto config db
  = Resolved course
      (Courses.insertParticipants id ps (with_courses (courses db ++ [course]) db)).
Proof.
  intros id ps course Hnew.
  assert (Hex : existsb (fun c => course_id c =? id) (courses db) = false).
  { apply existsb_false_iff. intros c Hin. apply String.eqb_neq. now apply Hnew. }
  unfold Courses.createCourse. subst ps course. unfold lecturerParticipants.
  destruct (Courses.hasLecturers (Courses.create_lecturers courseDto)).
  - unfold Courses.save.
    change (course_id (Courses.withParticipants _ _)) with id.
    now rewrite Hex.
  - unfold Courses.save.
    change (course_id (CourseRepository.createInsertableEntity _ _)) with id.
    now rewrite Hex.
Qed.

Lemma In_lecturerParticipants users courseDto uid role :
  In (uid, role) (lecturerParticipants users courseDto) <->
  role = LECTURER
  /\ exists u, In u users /\ user_id u = uid /\ namedLecturer courseDto u.
Proof.
  unfold lecturerParticipants, namedLecturer, Courses.hasLecturers, Courses.findLecturers.
  destruct (Courses.create_lecturers courseDto) as [| |names].
  - split; [intros []|]. intros (_ & u & _ & _ & names & Hv & _). discriminate.
  - split; [intros []|]. intros (_ & u & _ & _ & names & Hv & _). discriminate.
  - destruct names as [|name names]; cbn [List.length Nat.ltb Nat.leb].
    + split; [intros []|]. intros (_ & u & _ & _ & names & Hv & Hin).
      injection Hv as <-. destruct Hin.
    + rewrite in_map_iff. split.
      * intros (u & Hpair & Hin). injection Hpair as <- <-.
        apply filter_In in Hin. destruct Hin as [Hin Hex].
        apply existsb_exists in Hex. destruct Hex as (n & Hn & Heq).
        apply String.eqb_eq in Heq. split; [reflexivity|].
        exists u. repeat split; try assumption.
        exists (name :: names). split; [reflexivity|]. now rewrite Heq.
      * intros (-> & u & Hin & <- & names' & Hv & Hname). injection Hv as <-.
        exists u. split; [reflexivity|]. apply filter_In. split; [exact Hin|].
        apply existsb_exists. exists (user_username u). split; [exact Hname|].
        apply String.eqb_refl.
Qed.

Lemma map_snd_combine_seq (A : Type) (l : list A) :
  forall start, map snd (combine (seq start (List.length l)) l) = l.
Proof.
  induction l as [|x l IH]; intros start; cbn; [reflexivity|]. now rewrite IH.
Qed.

(** The participant rows of a cascade, without their ids. *)
Lemma cascade_rows courseId (ps : list (UserId * CourseRole)) :
  forall start,
    map (fun p => (participant_courseId p, participant_userId p, participant_role p))
        (map (fun ip => mkParticipant (fst ip) courseId (fst (snd ip)) (snd (snd ip)))
             (combine (seq start (List.length ps)) ps))
    = map (fun x => (courseId, fst x, snd x)) ps.
Proof.
  induction ps as [|x ps IH]; intros start; cbn; [reflexivity|]. now rewrite IH.
Qed.

(** X8: for an id that no stored course has, [createCourse] appends the
    course built from the DTOs; its participants are the users of the user
    table whose username is among the lecturers of the DTO, each as
    LECTURER, so that a lecturer name without a user is passed over; the
    cascade stores one participant row of the course per participant, and
    [getCourseById] loads the created course afterwards. *)
Theorem createCourse_lecturers_become_participants
  (users : list User) (courseDto : Courses.CourseCreateDto)
  (config : CourseRepository.CourseConfigDto) (db : Db) :
  let id := CourseRepository.dto_id (Courses.create_dto courseDto) in
  (forall c, In c (courses db) -> course_id c <> id) ->
  exists course db' rows,
    Courses.createCourse users courseDto config db = Resolved course db'
    /\ course_id course = id
    /\ course_config course
       = course_config (CourseRepository.createInsertableEntity (Courses.create_dto courseDto) config)
    /\ (forall uid role,
           In (uid, role) (course_participants course) <->
           role = LECTURER
           /\ exists u, In u users /\ user_id u = uid /\ namedLecturer courseDto u)
    /\ courses db' = courses db ++ [course]
    /\ participants db' = participants db ++ rows
    /\ map (fun p => (participant_courseId p, participant_userId p, participant_role p)) rows
       = map (fun x => (id, fst x, snd x)) (course_participants course)
    /\ Courses.getCourseById id db' = Resolved course db'.
Proof.
  intros id Hnew. rewrite (createCourse_run users courseDto config db Hnew). fold id.
  set (ps := lecturerParticipants users courseDto).
  eexists. eexists. eexists. split; [reflexivity|].
  split; [reflexivity|]. split; [reflexivity|]. split.
  { intros uid role. apply In_lecturerParticipants. }
  split; [reflexivity|]. split; [reflexivity|]. split.
  { apply cascade_rows. }
  unfold Courses.getCourseById, findOneOrFail.
  cbn [courses Courses.insertParticipants with_nextId with_participants with_courses].
  rewrite findOne_app_none.
  - cbn. fold id. now rewrite String.eqb_refl.
  - intros c Hin. apply String.eqb_neq. now apply Hnew.
Qed.

Lemma createCourse_lecturers_become_participants_witness :
  exists course db',
    Courses.createCourse sampleUsers
      (Courses.mkCourseCreateDto
         (CourseRepository.mkCourseDto "c2" "info" "sose20" "Informatics" undefined false)
         (value ["hpeter"; "nobody"]))
      (CourseRepository.mkCourseConfigDto undefined undefined [] undefined undefined)
      sampleDb
    = Resolved course db'
    /\ course_id course = "c2"
    /\ Courses.getCourseById "c2" db' = Resolved course db'.
Proof.
  set (dto := Courses.mkCourseCreateDto
                (CourseRepository.mkCourseDto "c2" "info" "sose20" "Informatics" undefined false)
                (value ["hpeter"; "nobody"])).
  set (config := CourseRepository.mkCourseConfigDto undefined undefined [] undefined undefined).
  assert (Hnew : forall c, In c (courses sampleDb) ->
                           course_id c <> CourseRepository.dto_id (Courses.create_dto dto)).
  { intros c [<-|[]]. discriminate. }
  destruct (createCourse_lecturers_become_participants sampleUsers dto config sampleDb Hnew)
    as (course & db' & rows & Hrun & Hid & _ & _ & _ & _ & _ & Hload).
  exists course, db'. split; [exact Hrun|]. split; [exact Hid|exact Hload].
Defined.

Example createCourse_skips_unknown_lecturer :
  fmap course_participants
       (Courses.createCourse sampleUsers
          (Courses.mkCourseCreateDto
             (CourseRepository.mkCourseDto "c2" "info" "sose20" "Informatics" undefined false)
             (value ["hpeter"; "nobody"]))
          (CourseRepository.mkCourseConfigDto undefined undefined [] undefined undefined))
       emptyDb
  = Resolved [("u2", LECTURER)]
      (mkDb [mkCourse "c2" "info" "sose20" "Informatics" undefined false
                      (Some (mkCourseConfig None undefined [] undefined None))
                      [("u2", LECTURER)]]
            [mkParticipant 0 "c2" "u2" LECTURER] [] [] [] [] [] 1).
Proof. reflexivity. Qed.

(** ** Listing courses *)

Lemma ilike_any (name : string) : Like.ilike name "%%" = true.
Proof. unfold Like.ilike. cbn [list_ascii_of_string map]. apply like_percent_skip, like_trailing_percent. Qed.

Lemma find_is_head_of_filter (Row : Type) (cond : Row -> bool) (table : list Row) :
  find cond table = match filter cond table with r :: _ => Some r | [] => None end.
Proof.
  induction table as [|r table IH]; simpl; [reflexivity|].
  destruct (cond r); [reflexivity|exact IH].
Qed.

Lemma filter_all (Row : Type) (cond : Row -> bool) (table : list Row) :
  (forall r, cond r = true) -> filter cond table = table.
Proof.
  intros H. induction table as [|r table IH]; simpl; [reflexivity|]. now rewrite H, IH.
Qed.

Lemma matchesFilter_without_title title shortname semester c :
  noTitle title ->
  Courses.matchesFilter (Courses.mkCourseFilter title shortname semester) c
  = (if truthy shortname then course_shortname c =? Courses.stringOr shortname "" else true)
    && (if truthy semester then course_semester c =? Courses.stringOr semester "" else true).
Proof.
  intros Ht. unfold Courses.matchesFilter.
  cbn [Courses.filter_title Courses.filter_shortname Courses.filter_semester].
  assert (Hpattern : (if truthy title then Courses.stringOr title "" else "") = "")
    by (destruct Ht as [->|[->| ->]]; reflexivity).
  rewrite Hpattern. change ("%" ++ "" ++ "%")%string with "%%". now rewrite ilike_any.
Qed.

(** X10: [getCourses] without a filter, or with a filter object that has
    no property, resolves to all courses; with a filter, every course it
    resolves to is a stored course that has the shortname and the semester
    of the filter, where these are non-empty; an empty string as shortname
    is not a condition; and with non-empty shortname and semester and no
    title it resolves to the courses with that shortname and semester, the
    first of which is the one [getCourseByNameAndSemester] loads, if there
    is one, and which is rejected with EntityNotFoundError otherwise. *)
Theorem getCourses_filter (db : Db) :
  (forall filter,
      filter = undefined \/ filter = null
      \/ (exists f, filter = value f /\ Courses.hasKeys f = false) ->
      Courses.getCourses filter db = Resolved (courses db) db)
  /\ (forall f, exists found,
         Courses.getCourses (value f) db = Resolved found db
         /\ forall c, In c found ->
              In c (courses db)
              /\ (forall s, Courses.filter_shortname f = value s -> s <> "" ->
                            course_shortname c = s)
              /\ (forall s, Courses.filter_semester f = value s -> s <> "" ->
                            course_semester c = s))
  /\ Courses.getCourses (value (Courses.mkCourseFilter undefined (value "") undefined)) db
     = Resolved (courses db) db
  /\ (forall title name semester,
         noTitle title -> name <> "" -> semester <> "" ->
         let found := filter (fun c => (course_shortname c =? name)
                                       && (course_semester c =? semester)) (courses db) in
         Courses.getCourses (value (Courses.mkCourseFilter title (value name) (value semester))) db
         = Resolved found db
         /\ Courses.getCourseByNameAndSemester name semester db
            = match found with
              | c :: _ => Resolved c db
              | [] => Rejected EntityNotFoundError db
              end).
Proof.
  split; [|split; [|split]].
  - intros filter [->|[->|(f & -> & Hkeys)]]; unfold Courses.getCourses, get;
      [reflexivity|reflexivity|now rewrite Hkeys].
  - intros f. unfold Courses.getCourses, get.
    destruct (Courses.hasKeys f) eqn:Hkeys.
    + eexists. split; [reflexivity|]. intros c Hin. apply filter_In in Hin.
      destruct Hin as [Hin Hm]. split; [exact Hin|].
      unfold Courses.matchesFilter in Hm. rewrite !andb_true_iff in Hm.
      destruct Hm as [[_ Hshort] Hsem]. split.
      * intros s Hs Hne. rewrite Hs in Hshort. cbn in Hshort.
        apply String.eqb_neq in Hne. rewrite Hne in Hshort. cbn in Hshort.
        now apply String.eqb_eq.
      * intros s Hs Hne. rewrite Hs in Hsem. cbn in Hsem.
        apply String.eqb_neq in Hne. rewrite Hne in Hsem. cbn in Hsem.
        now apply String.eqb_eq.
    + exists (courses db). split; [reflexivity|]. intros c Hin.
      unfold Courses.hasKeys in Hkeys.
      destruct (Courses.filter_title f), (Courses.filter_shortname f),
        (Courses.filter_semester f); try discriminate.
      split; [exact Hin|]. split; intros s Hs; discriminate.
  - unfold Courses.getCourses, get. cbn [Courses.hasKeys Courses.filter_title
      Courses.filter_shortname Courses.filter_semester]. f_equal.
    apply filter_all. intros c.
    now rewrite matchesFilter_without_title by (now left).
  - intros title name semester Ht Hname Hsem found. split.
    + unfold Courses.getCourses, get.
      assert (Hkeys : Courses.hasKeys (Courses.mkCourseFilter title (value name) (value semester))
                      = true) by (unfold Courses.hasKeys; cbn; now destruct title).
      rewrite Hkeys. f_equal. apply filter_ext. intros c.
      rewrite (matchesFilter_without_title _ _ c Ht). cbn.
      apply String.eqb_neq in Hname, Hsem. now rewrite Hname, Hsem.
    + unfold Courses.getCourseByNameAndSemester, findOneOrFail, findOne.
      rewrite find_is_head_of_filter. fold found. now destruct found.
Qed.

Lemma getCourses_filter_witness :
  Courses.getCourses (value (Courses.mkCourseFilter (value "") (value "java") (value "wise1920")))
                     sampleDb
  = Resolved [sampleCourse] sampleDb
  /\ Courses.getCourseByNameAndSemester "java" "sose20" sampleDb
     = Rejected EntityNotFoundError sampleDb.
Proof.
  destruct (getCourses_filter sampleDb) as (_ & _ & _ & Hboth).
  assert (Hj : "java" <> "") by discriminate.
  assert (Hw : "wise1920" <> "") by discriminate.
  assert (Hs : "sose20" <> "") by discriminate.
  split.
  - exact (proj1 (Hboth (value "") "java" "wise1920" (or_intror (or_intror eq_refl)) Hj Hw)).
  - exact (proj2 (Hboth undefined "java" "sose20" (or_introl eq_refl) Hj Hs)).
Defined.

(** ** Recreating groups from a map of members *)

Lemma mapGet_key entries id :
  In id (map fst entries) -> exists members, Groups.mapGet entries id = Some members.
Proof.
  unfold Groups.mapGet. intros Hin. apply in_map_iff in Hin. destruct Hin as (entry & <- & Hin).
  destruct (find (fun e => fst e =? fst entry) entries) as [found|] eqn:F.
  - now exists (snd found).
  - pose proof (find_none _ _ F entry Hin) as Hc. cbn in Hc.
    now rewrite String.eqb_refl in Hc.
Qed.

Lemma recreateAll_of_keys entries fetched :
  (forall g, In g fetched -> In (group_id g) (map fst entries)) ->
  exists recreated,
    Groups.recreateAll entries fetched = inr recreated
    /\ map fst recreated = fetched
    /\ forall g relations, In (g, relations) recreated ->
         exists members,
           Groups.mapGet entries (group_id g) = Some members
           /\ relations = map (Groups.recreate (group_id g)) members.
Proof.
  induction fetched as [|g fetched IH]; intros Hkeys; cbn [Groups.recreateAll].
  - exists []. repeat split. intros g relations [].
  - destruct (mapGet_key entries (group_id g)) as (members & Hget);
      [apply Hkeys; now left|].
    rewrite Hget.
    destruct IH as (done & Hrun & Hfst & Hrel); [intros g' Hin; apply Hkeys; now right|].
    rewrite Hrun. eexists. split; [reflexivity|]. split; [cbn; now rewrite Hfst|].
    intros g' relations [Heq|Hin].
    + injection Heq as <- <-. now exists members.
    + now apply Hrel.
Qed.

(** X11: [getRecreatedGroups] is never rejected: it resolves to the stored
    groups whose id is a key of the map, in the order of the table, so that
    a key without a stored group is passed over and an empty map gives the
    empty list; each group carries one relation per user of its entry, in
    the order of the entry, with the id of the group, the id of the user,
    and a participant with the role STUDENT and the username and rzName of
    the user. The store is left as it was. *)
Theorem getRecreatedGroups_of_stored_keys
  (db : Db) (groupIdUsersMap : list (GroupId * list User)) :
  exists recreated,
    Groups.getRecreatedGroups groupIdUsersMap db = Resolved recreated db
    /\ map fst recreated
       = filter (fun g => existsb (fun id => group_id g =? id) (map fst groupIdUsersMap))
                (groups db)
    /\ (forall g relations, In (g, relations) recreated ->
          exists members,
            Groups.mapGet groupIdUsersMap (group_id g) = Some members
            /\ map Groups.rr_user relations = members
            /\ Forall (fun relation =>
                         Groups.rr_groupId relation = group_id g
                         /\ Groups.rr_userId relation = user_id (Groups.rr_user relation)
                         /\ Groups.rr_participant relation
                            = Groups.mkRecreatedParticipant
                                (user_id (Groups.rr_user relation)) STUDENT
                                (user_username (Groups.rr_user relation))
                                (user_rzName (Groups.rr_user relation)))
                      relations)
    /\ (groupIdUsersMap = [] -> recreated = []).
Proof.
  unfold Groups.getRecreatedGroups, Groups.getGroupsByIds, await, get.
  set (keys := map fst groupIdUsersMap).
  set (fetched := if Nat.eqb (List.length keys) 0 then []
                  else filter (fun g => existsb (fun id => group_id g =? id) keys) (groups db)).
  assert (Hfetched : fetched = filter (fun g => existsb (fun id => group_id g =? id) keys)
                                      (groups db)).
  { unfold fetched. destruct keys as [|k keys']; [|reflexivity].
    cbn. symmetry. apply filter_none. reflexivity. }
  destruct (@recreateAll_of_keys groupIdUsersMap fetched) as (recreated & Hrun & Hfst & Hrel).
  { intros g Hin. rewrite Hfetched in Hin. apply filter_In in Hin.
    destruct Hin as [_ Hex]. apply existsb_exists in Hex. destruct Hex as (id & Hid & Heq).
    apply String.eqb_eq in Heq. now rewrite Heq. }
  rewrite Hrun. exists recreated. split; [reflexivity|]. split; [now rewrite Hfst|]. split.
  - intros g relations Hin. destruct (Hrel g relations Hin) as (members & Hget & ->).
    exists members. split; [exact Hget|]. split.
    + rewrite map_map. cbn. apply map_id.
    + apply Forall_forall. intros relation Hr. apply in_map_iff in Hr.
      destruct Hr as (member & <- & _). repeat split.
  - intros ->. cbn in Hfst. now destruct recreated.
Qed.

Lemma getRecreatedGroups_of_stored_keys_witness :
  Groups.getRecreatedGroups [] sampleDb = Resolved [] sampleDb.
Proof.
  destruct (getRecreatedGroups_of_stored_keys sampleDb []) as (recreated & Hrun & _ & _ & Hempty).
  now rewrite Hrun, (Hempty eq_refl).
Defined.

Example getRecreatedGroups_skips_missing_group :
  Groups.getRecreatedGroups [("g404", sampleUsers); ("g1", [mkUser "u2" "hpeter" "hp2"])] sampleDb
  = Resolved
      [(sampleGroup,
        [Groups.mkRecreatedRelation (mkUser "u2" "hpeter" "hp2") "u2" "g1"
           (Groups.mkRecreatedParticipant "u2" STUDENT "hpeter" "hp2")])]
      sampleDb.
Proof. reflexivity. Qed.

(** ** The group of a user *)

(** X12: the course id handed to [getGroupOfUserForCourse] does not enter
    the query: for every course id it resolves to a stored group that has
    the user as a member, also when that group belongs to another course,
    and it is rejected with EntityNotFoundError exactly when no
    stored group has the user as a member. *)
Theorem getGroupOfUserForCourse_any_course (db : Db) (courseId : CourseId) (userId : UserId) :
  (forall group,
      Groups.getGroupOfUserForCourse courseId userId db = Resolved group db ->
      In group (groups db) /\ isMemberOf db (group_id group) userId)
  /\ (forall group,
         In group (groups db) -> isMemberOf db (group_id group) userId ->
         exists found, Groups.getGroupOfUserForCourse courseId userId db = Resolved found db)
  /\ ((forall group, In group (groups db) -> ~ isMemberOf db (group_id group) userId) ->
      Groups.getGroupOfUserForCourse courseId userId db = Rejected EntityNotFoundError db).
Proof.
  unfold Groups.getGroupOfUserForCourse.
  set (cond := fun g => existsb (fun r => (ugr_groupId r =? group_id g) && (ugr_userId r =? userId))
                                (userGroupRelations db)).
  assert (Hcond : forall g, cond g = true <-> isMemberOf db (group_id g) userId).
  { intros g. unfold cond. rewrite existsb_exists. split.
    - intros (r & Hin & Hc). apply andb_true_iff in Hc. destruct Hc as [Hg Hu].
      apply String.eqb_eq in Hg, Hu. now exists r.
    - intros (r & Hin & Hg & Hu). exists r. split; [exact Hin|].
      now rewrite Hg, Hu, !String.eqb_refl. }
  split; [|split].
  - intros group Hrun. destruct (findOne cond (groups db)) as [g|] eqn:F; [|discriminate].
    injection Hrun as <-. destruct (findOne_some _ _ F) as [Hin Hc].
    split; [exact Hin|]. now apply Hcond.
  - intros group Hin Hm. destruct (findOne cond (groups db)) as [g|] eqn:F.
    + now exists g.
    + rewrite findOne_none in F. specialize (F group Hin).
      apply Hcond in Hm. congruence.
  - intros Hno.
    assert (F : findOne cond (groups db) = None).
    { apply findOne_none. intros g Hin. destruct (cond g) eqn:E; [|reflexivity].
      exfalso. apply (Hno g Hin). now apply Hcond. }
    now rewrite F.
Qed.

Lemma getGroupOfUserForCourse_any_course_witness :
  exists found, Groups.getGroupOfUserForCourse "c2" "u1" sampleDb = Resolved found sampleDb.
Proof.
  destruct (getGroupOfUserForCourse_any_course sampleDb "c2" "u1") as (_ & Hmember & _).
  apply (Hmember sampleGroup); [now left|].
  exists (mkUserGroupRelation 0 "u1" "g1" 7). cbn. tauto.
Defined.

Example getGroupOfUserForCourse_other_course :
  Groups.getGroupOfUserForCourse "c2" "u1" sampleDb = Resolved sampleGroup sampleDb
  /\ group_courseId sampleGroup = "c1".
Proof. split; reflexivity. Qed.

(** ** Registering whole groups *)

Lemma saveAll_run news :
  forall db,
    Registrations.saveAll news db
    = Resolved (storedFrom (nextId db) news)
        (with_nextId (nextId db + List.length news)
           (with_registrations (registrations db ++ storedFrom (nextId db) news) db)).
Proof.
  induction news as [|n news IH]; intros db; cbn [Registrations.saveAll storedFrom List.length].
  - unfold resolve. f_equal. rewrite Nat.add_0_r, app_nil_r. now destruct db.
  - unfold await, AssignmentRegistrationRepository.save. rewrite IH. unfold resolve.
    cbn [nextId registrations with_nextId with_registrations]. f_equal.
    destruct db. unfold with_nextId, with_registrations. cbn.
    f_equal; [now rewrite <- app_assoc|lia].
Qed.

Lemma storedFrom_ids news : forall start, map reg_id (storedFrom start news) = seq start (List.length news).
Proof. induction news as [|n news IH]; intros start; cbn; [reflexivity|]. now rewrite IH. Qed.

Lemma storedFrom_content groups assignmentId :
  forall start,
    map (fun r => (reg_assignmentId r, reg_groupId r, members r))
        (storedFrom start (Registrations.buildRegistrations groups assignmentId))
    = map (fun g => (assignmentId, Some (group_id (fst g)), map ugr_participantId (snd g))) groups.
Proof.
  induction groups as [|g groups IH]; intros start; cbn; [reflexivity|].
  unfold members at 1. cbn. rewrite map_map. cbn. rewrite map_id. f_equal. apply IH.
Qed.

Lemma storedFrom_forGroup groups assignmentId a g :
  forall start,
    List.length (filter (forGroup a g)
                        (storedFrom start (Registrations.buildRegistrations groups assignmentId)))
    = affected (fun group => (assignmentId =? a) && (group_id (fst group) =? g)) groups.
Proof.
  unfold affected. induction groups as [|group groups IH]; intros start; cbn; [reflexivity|].
  unfold forGroup at 1. cbn.
  destruct ((assignmentId =? a) && (group_id (fst group) =? g)); cbn; now rewrite IH.
Qed.

Lemma atMostOne_of_distinct_pairs db :
  NoDup (map (fun r => (reg_assignmentId r, reg_groupId r)) (registrations db)) ->
  atMostOneRegistration db.
Proof.
  intros Hnd a g.
  unfold atMostOneRegistration. fold (affected (forGroup a g) (registrations db)).
  apply affected_le_1 with (key := fun r => (reg_assignmentId r, reg_groupId r)); [exact Hnd|].
  intros r r' Hr Hr'. apply forGroup_true in Hr, Hr'.
  destruct Hr as [-> ->], Hr' as [-> ->]. reflexivity.
Qed.

(** X13: [createRegistrations] for groups with distinct ids, none of which
    is registered for the assignment yet, resolves to one registration per
    group, in the order of the groups, each for the assignment and the
    group and with the participants of the members of the group, and
    appends them to the stored registrations; ids stay distinct, there is
    still at most one registration per assignment and group, and
    [hasRegistrations] holds afterwards. Without groups nothing is saved. *)
Theorem createRegistrations_one_per_group
  (db : Db) (assignmentId : AssignmentId) (groups : list Registrations.GroupWithMembers) :
  NoDup (map (fun g => group_id (fst g)) groups) ->
  (forall g, In g groups ->
             findOne (forGroup assignmentId (group_id (fst g))) (registrations db) = None) ->
  registrationIds db ->
  atMostOneRegistration db ->
  exists saved db',
    Registrations.createRegistrations assignmentId groups db = Resolved saved db'
    /\ registrations db' = registrations db ++ saved
    /\ map (fun r => (reg_assignmentId r, reg_groupId r, members r)) saved
       = map (fun g => (assignmentId, Some (group_id (fst g)), map ugr_participantId (snd g)))
             groups
    /\ registrationIds db'
    /\ atMostOneRegistration db'
    /\ (groups = [] -> db' = db)
    /\ (groups <> [] -> hasRegistrations assignmentId db' = Resolved true db').
Proof.
  intros Hdistinct Hnew [Hnd Hlt] Hone.
  set (news := Registrations.buildRegistrations groups assignmentId).
  assert (Hlen : List.length news = List.length groups) by apply length_map.
  exists (storedFrom (nextId db) news),
    (with_nextId (nextId db + List.length news)
       (with_registrations (registrations db ++ storedFrom (nextId db) news) db)).
  split; [|split; [reflexivity|split; [apply storedFrom_content|split; [|split; [|split]]]]].
  - unfold Registrations.createRegistrations. fold news.
    destruct (Nat.eqb (List.length news) 0) eqn:E; [|apply saveAll_run].
    apply Nat.eqb_eq in E. destruct news; [|discriminate].
    unfold resolve. cbn. f_equal. rewrite Nat.add_0_r, app_nil_r. now destruct db.
  - split; cbn [registrations nextId with_nextId with_registrations].
    + rewrite map_app, storedFrom_ids. apply NoDup_app; [exact Hnd|apply seq_NoDup|].
      intros id Hin Hseq. apply in_seq in Hseq. apply in_map_iff in Hin.
      destruct Hin as (r & <- & Hin). specialize (Hlt r Hin). lia.
    + intros r Hin. apply in_app_or in Hin. destruct Hin as [Hin|Hin].
      * specialize (Hlt r Hin). lia.
      * apply (in_map reg_id) in Hin. rewrite storedFrom_ids in Hin. apply in_seq in Hin. lia.
  - intros a g. cbn [registrations with_nextId with_registrations].
    rewrite filter_app, length_app. unfold news. rewrite storedFrom_forGroup.
    set (cond := fun group : Group * list UserGroupRelation =>
                   (assignmentId =? a) && (group_id (fst group) =? g)).
    assert (Hle : affected cond groups <= 1).
    { apply affected_le_1 with (key := fun group : Group * list UserGroupRelation =>
                                         group_id (fst group)); [exact Hdistinct|].
      intros r r' Hr Hr'. unfold cond in Hr, Hr'. apply andb_true_iff in Hr, Hr'.
      destruct Hr as [_ Hr], Hr' as [_ Hr']. apply String.eqb_eq in Hr, Hr'. congruence. }
    destruct (affected cond groups) as [|k] eqn:Haff; [specialize (Hone a g); lia|].
    assert (Hex : exists group, In group groups /\ cond group = true).
    { destruct (existsb cond groups) eqn:E.
      - apply existsb_exists in E. exact E.
      - exfalso. rewrite existsb_false_iff in E. apply affected_0_iff in E. lia. }
    destruct Hex as (group & Hin & Hc). unfold cond in Hc. apply andb_true_iff in Hc.
    destruct Hc as [Ha Hg]. apply String.eqb_eq in Ha, Hg. subst a g.
    rewrite (filter_nil_of_findOne_none _ _ (Hnew group Hin)). cbn. lia.
  - intros ->. cbn. rewrite Nat.add_0_r, app_nil_r. now destruct db.
  - intros Hgroups. unfold hasRegistrations, get.
    cbn [registrations with_nextId with_registrations].
    destruct (findOne (forAssignment assignmentId) _) as [r|] eqn:F; [reflexivity|exfalso].
    rewrite findOne_none in F. destruct groups as [|g groups']; [now apply Hgroups|].
    specialize (F (mkAssignmentRegistration (nextId db) assignmentId (Some (group_id (fst g))) None
                     (map (mkGroupRegistrationRelation (nextId db))
                          (map ugr_participantId (snd g))))).
    unfold forAssignment in F. cbn [reg_assignmentId] in F. rewrite String.eqb_refl in F.
    assert (Hfalse : true = false); [|discriminate].
    apply F. apply in_or_app. right. now left.
Qed.

Lemma createRegistrations_one_per_group_witness :
  exists saved db',
    Registrations.createRegistrations "a2"
      [(sampleGroup, [mkUserGroupRelation 0 "u1" "g1" 7])] twoRegistrations
    = Resolved saved db'
    /\ map (fun r => (reg_assignmentId r, reg_groupId r, members r)) saved
       = [("a2", Some "g1", [7])]
    /\ hasRegistrations "a2" db' = Resolved true db'.
Proof.
  assert (Hdistinct : NoDup (map (fun g : Registrations.GroupWithMembers => group_id (fst g))
                                 [(sampleGroup, [mkUserGroupRelation 0 "u1" "g1" 7])])).
  { repeat constructor. intros []. }
  assert (Hnew : forall g, In g [(sampleGroup, [mkUserGroupRelation 0 "u1" "g1" 7])] ->
                   findOne (forGroup "a2" (group_id (fst g))) (registrations twoRegistrations)
                   = None).
  { intros g [<-|[]]. reflexivity. }
  assert (Hids : registrationIds twoRegistrations).
  { split.
    - cbn. repeat constructor; cbn; intuition discriminate.
    - intros r [<-|[<-|[]]]; cbn; lia. }
  assert (Hone : atMostOneRegistration twoRegistrations).
  { apply atMostOne_of_distinct_pairs. cbn.
    repeat constructor; cbn; intuition discriminate. }
  destruct (@createRegistrations_one_per_group twoRegistrations "a2"
              [(sampleGroup, [mkUserGroupRelation 0 "u1" "g1" 7])] Hdistinct Hnew Hids Hone)
    as (saved & db' & Hrun & _ & Hcontent & _ & _ & _ & Hhas).
  exists saved, db'. split; [exact Hrun|]. split; [exact Hcontent|].
  apply Hhas. discriminate.
Defined.

(** ** Registrations of an assignment *)

Lemma find_filter_keep (Row : Type) (cond keep : Row -> bool) (table : list Row) :
  (forall r, cond r = true -> keep r = true) ->
  find cond (filter keep table) = find cond table.
Proof.
  intros H. induction table as [|r table IH]; cbn; [reflexivity|].
  destruct (keep r) eqn:K; cbn.
  - now rewrite IH.
  - destruct (cond r) eqn:C; [|exact IH]. rewrite (H r C) in K. discriminate.
Qed.

(** X14: [hasRegistrations] resolves to [true] exactly when a registration
    of the assignment is stored. After [removeRegistrations] of an
    assignment it resolves to [false] for that assignment and to what it
    resolved to before for every other assignment, whose registrations are
    all still stored. *)
Theorem hasRegistrations_after_removeRegistrations (db : Db) (assignmentId : AssignmentId) :
  (exists b, hasRegistrations assignmentId db = Resolved b db
             /\ (b = true <->
                 exists r, In r (registrations db) /\ reg_assignmentId r = assignmentId))
  /\ (let db' := stateOf (removeRegistrations assignmentId db) in
      hasRegistrations assignmentId db' = Resolved false db'
      /\ (forall r, In r (registrations db') <->
                    In r (registrations db) /\ reg_assignmentId r <> assignmentId)
      /\ (forall other, other <> assignmentId ->
            exists b, hasRegistrations other db = Resolved b db
                      /\ hasRegistrations other db' = Resolved b db')).
Proof.
  split.
  - unfold hasRegistrations, get.
    destruct (findOne (forAssignment assignmentId) (registrations db)) as [r|] eqn:F.
    + exists true. split; [reflexivity|]. split; [|reflexivity]. intros _.
      destruct (findOne_some _ _ F) as [Hin Hc]. apply String.eqb_eq in Hc. now exists r.
    + exists false. split; [reflexivity|]. split; [discriminate|].
      intros (r & Hin & Ha). rewrite findOne_none in F. specialize (F r Hin).
      unfold forAssignment in F. apply String.eqb_neq in F. contradiction.
  - cbn zeta. unfold removeRegistrations, put. cbn [stateOf].
    split; [|split].
    + unfold hasRegistrations, get. cbn [registrations with_registrations].
      now rewrite findOne_remaining.
    + intros r. cbn [registrations with_registrations]. unfold remaining, forAssignment.
      rewrite filter_In, negb_true_iff, String.eqb_neq. reflexivity.
    + intros other Hother. unfold hasRegistrations, get.
      cbn [registrations with_registrations]. unfold findOne, remaining.
      rewrite find_filter_keep.
      * destruct (find (forAssignment other) (registrations db)); eexists; split; reflexivity.
      * intros r Hc. unfold forAssignment in *. apply String.eqb_eq in Hc.
        apply negb_true_iff, String.eqb_neq. congruence.
Qed.

Lemma hasRegistrations_after_removeRegistrations_witness :
  hasRegistrations "a1" twoRegistrations = Resolved true twoRegistrations
  /\ hasRegistrations "a1" (stateOf (removeRegistrations "a1" twoRegistrations))
     = Resolved false (stateOf (removeRegistrations "a1" twoRegistrations)).
Proof.
  destruct (hasRegistrations_after_removeRegistrations twoRegistrations "a1")
    as [(b & Hrun & Hiff) (Hafter & _)].
  split; [|exact Hafter].
  assert (Hb : b = true).
  { apply Hiff. eexists. split; [now left|reflexivity]. }
  now rewrite Hrun, Hb.
Defined.

(** X15: registering a participant for a group that has no registration
    for the assignment yet and then removing the registration of the group
    resolves to [true] and leaves exactly the registrations that were
    stored before. *)
Theorem createRegistration_then_removeRegistrationForGroup
  (db : Db) (assignmentId : AssignmentId) (groupId : GroupId) (userId : UserId)
  (participantId : nat) :
  registrationIds db ->
  findOne (forGroup assignmentId groupId) (registrations db) = None ->
  let db1 := stateOf (createRegistration assignmentId groupId userId participantId db) in
  exists db2,
    removeRegistrationForGroup assignmentId groupId db1 = Resolved true db2
    /\ registrations db2 = registrations db
    /\ removeRegistrationForGroup assignmentId groupId db2 = Resolved false db2.
Proof.
  intros Hids Hnone db1.
  pose proof (createRegistration_cases assignmentId groupId userId participantId Hids) as Hrun.
  rewrite Hnone in Hrun. cbv zeta in Hrun. unfold db1. rewrite Hrun. cbn [stateOf].
  set (reg := mkAssignmentRegistration (nextId db) assignmentId (Some groupId) None
                [mkGroupRegistrationRelation (nextId db) participantId]).
  assert (Hold : filter (forGroup assignmentId groupId) (registrations db) = [])
    by now apply filter_nil_of_findOne_none.
  assert (Hreg : forGroup assignmentId groupId reg = true)
    by (unfold forGroup; cbn; now rewrite !String.eqb_refl).
  unfold removeRegistrationForGroup, await, get.
  cbn [registrations with_nextId with_registrations].
  rewrite filter_app, Hold. cbn [filter app]. rewrite Hreg.
  cbn [List.length Nat.eqb]. unfold remove, resolve.
  cbn [registrations with_nextId with_registrations].
  assert (Hrem : remaining (fun r => existsb (fun e => hasId (reg_id e) r) [reg])
                           (registrations db ++ [reg]) = registrations db).
  { unfold remaining. rewrite filter_app. cbn [filter existsb]. rewrite hasId_self. cbn.
    rewrite app_nil_r. apply (remaining_all (fun r => existsb (fun e => hasId (reg_id e) r) [reg])).
    intros r Hin. cbn. rewrite orb_false_r. unfold hasId. apply Nat.eqb_neq.
    destruct Hids as [_ Hlt]. specialize (Hlt r Hin). cbn. lia. }
  rewrite Hrem. eexists. split; [reflexivity|]. split; [reflexivity|].
  cbn [registrations with_nextId with_registrations]. now rewrite Hold.
Qed.

Lemma createRegistration_then_removeRegistrationForGroup_witness :
  exists db2,
    removeRegistrationForGroup "a1" "g1" (stateOf (createRegistration "a1" "g1" "u1" 7 emptyDb))
    = Resolved true db2
    /\ registrations db2 = [].
Proof.
  assert (Hids : registrationIds emptyDb) by (split; [constructor|intros r []]).
  destruct (@createRegistration_then_removeRegistrationForGroup emptyDb "a1" "g1" "u1" 7
              Hids eq_refl) as (db2 & Hrun & Hregs & _).
  exists db2. split; [exact Hrun|exact Hregs].
Defined.

(** ** How far the name search goes *)

Lemma to_uint_not_Nil n : Nat.to_uint n <> Decimal.Nil.
Proof.
  intros H. pose proof (DecimalNat.Unsigned.of_to n) as Hn. rewrite H in Hn.
  cbn in Hn. subst n. discriminate H.
Qed.

Lemma toString_inj n m : toString n = toString m -> n = m.
Proof.
  unfold toString. intros H.
  apply DecimalNat.Unsigned.to_uint_inj.
  pose proof (NilZero.usu (Nat.to_uint n) (to_uint_not_Nil n)) as Hn.
  pose proof (NilZero.usu (Nat.to_uint m) (to_uint_not_Nil m)) as Hm.
  rewrite H, Hm in Hn. now injection Hn.
Qed.

Lemma suggestions_NoDup schema count :
  forall start, NoDup (map (fun n => (schema ++ toString n)%string) (seq start count)).
Proof.
  induction count as [|count IH]; intros start; cbn; constructor; [|apply IH].
  intros Hin. apply in_map_iff in Hin. destruct Hin as (m & Heq & Hm).
  apply append_inj_r, toString_inj in Heq. apply in_seq in Hm. lia.
Qed.

(** As many groups as taken suggestions. *)
Lemma taken_suggestions_bound groups schema count :
  (forall m, 1 <= m < 1 + count -> nameAmong groups (schema ++ toString m)%string) ->
  count <= List.length groups.
Proof.
  intros Htaken.
  assert (H : List.length (map (fun n => (schema ++ toString n)%string) (seq 1 count))
              <= List.length (map group_name groups)).
  { apply NoDup_incl_length; [apply suggestions_NoDup|].
    intros name Hin. apply in_map_iff in Hin. destruct Hin as (m & <- & Hm).
    apply in_seq in Hm. destruct (Htaken m Hm) as (g & Hg & Hname).
    rewrite <- Hname. now apply in_map. }
  now rewrite !length_map, length_seq in H.
Qed.

(** X16: the name [tryFindAvailableName] returns is schema + N with N at
    most one more than the number of groups it was given, it is the name of
    none of them, and every smaller suffix is taken; it throws only when it
    was given at least 9999 groups. For no groups the name is schema + 1. *)
Theorem tryFindAvailableName_suffix_bound (groups : list Group) (schema : string) :
  match GroupRepository.tryFindAvailableName groups schema with
  | inr name =>
      exists n, 1 <= n <= S (List.length groups)
                /\ n <= GroupRepository.maxSuffix
                /\ name = (schema ++ toString n)%string
                /\ ~ nameAmong groups name
                /\ forall m, 1 <= m < n -> nameAmong groups (schema ++ toString m)%string
  | inl e =>
      e = Error "No available group name."
      /\ GroupRepository.maxSuffix <= List.length groups
  end
  /\ GroupRepository.tryFindAvailableName [] schema = inr (schema ++ "1")%string.
Proof.
  split; [|reflexivity].
  pose proof (tryFindAvailableName_spec groups schema) as H.
  destruct (GroupRepository.tryFindAvailableName groups schema) as [e|name].
  - destruct H as [-> Hall]. split; [reflexivity|].
    apply (@taken_suggestions_bound groups schema). intros m Hm. apply Hall. lia.
  - destruct H as (n & Hn & Hname & Hfree & Hbelow). exists n.
    assert (Hcount : n - 1 <= List.length groups).
    { apply (@taken_suggestions_bound groups schema). intros m Hm. apply Hbelow. lia. }
    repeat split; try lia; assumption.
Qed.

Lemma tryFindAvailableName_suffix_bound_witness :
  GroupRepository.tryFindAvailableName [] "Team" = inr "Team1".
Proof. exact (proj2 (tryFindAvailableName_suffix_bound [sampleGroup] "Team")). Defined.

(** ** Repeating an update of a group *)

Lemma updateGroup_run db groupId update group :
  findOne (fun g => group_id g =? groupId) (groups db) = Some group ->
  GroupRepository.updateGroup groupId update db
  = Resolved (applyUpdate update group)
      (with_groups (map (fun g => if group_id g =? groupId then applyUpdate update group else g)
                        (groups db)) db).
Proof.
  intros Hfind. destruct (findOne_some _ _ Hfind) as [_ Hid]. apply String.eqb_eq in Hid.
  unfold GroupRepository.updateGroup, GroupRepository.getGroupById, findOneOrFail, await.
  rewrite Hfind. unfold GroupRepository.save. subst groupId. reflexivity.
Qed.

Lemma applyUpdate_twice update group :
  applyUpdate update (applyUpdate update group) = applyUpdate update group.
Proof.
  unfold applyUpdate. cbn [group_id group_courseId group_name group_password group_isClosed
                           group_createdAt].
  f_equal.
  - destruct (GroupRepository.update_name update); reflexivity.
  - destruct (GroupRepository.update_password update) as [| |p]; try reflexivity.
    unfold isEmptyString, truthy, asColumn. destruct (p =? ""); reflexivity.
  - destruct (GroupRepository.update_isClosed update); reflexivity.
Qed.

Lemma applyUpdate_empty update group : emptyUpdate update -> applyUpdate update group = group.
Proof.
  intros (Hname & Hpassword & Hclosed). unfold applyUpdate. destruct group as [id c n p cl t].
  cbn. f_equal.
  - destruct (GroupRepository.update_name update) as [| |x]; try reflexivity.
    now destruct (Hname x).
  - destruct (GroupRepository.update_password update) as [| |x]; try reflexivity.
    now destruct (Hpassword x).
  - destruct (GroupRepository.update_isClosed update) as [| |x]; try reflexivity.
    now destruct (Hclosed x).
Qed.

(** X17: applying the same update to a stored group a second time resolves
    to the same group and leaves the store as the first update left it; an
    update without name, password and isClosed resolves to the stored group,
    and leaves the store unchanged when the ids of the groups are
    distinct. *)
Theorem updateGroup_repeated
  (db : Db) (groupId : GroupId) (update : GroupRepository.GroupUpdateDto) (group : Group) :
  findOne (fun g => group_id g =? groupId) (groups db) = Some group ->
  exists updated db',
    GroupRepository.updateGroup groupId update db = Resolved updated db'
    /\ GroupRepository.updateGroup groupId update db' = Resolved updated db'
    /\ (emptyUpdate update -> updated = group)
    /\ (emptyUpdate update -> NoDup (map group_id (groups db)) -> db' = db).
Proof.
  intros Hfind. destruct (findOne_some _ _ Hfind) as [Hin Hid]. apply String.eqb_eq in Hid.
  set (updated := applyUpdate update group).
  assert (Hupdated : (group_id updated =? groupId) = true)
    by (apply String.eqb_eq; exact Hid).
  eexists. eexists. split; [exact (@updateGroup_run db groupId update group Hfind)|].
  fold updated.
  split; [|split].
  - rewrite (@updateGroup_run _ groupId update updated).
    + unfold updated at 1 2. rewrite applyUpdate_twice. fold updated. f_equal.
      cbn [groups with_groups]. unfold with_groups. cbn. f_equal.
      rewrite map_map. apply map_ext. intros g.
      destruct (group_id g =? groupId) eqn:E; [now rewrite Hupdated|now rewrite E].
    + cbn [groups with_groups].
      exact (@findOne_replace Group (fun g => group_id g =? groupId) (groups db) group updated
               Hfind Hupdated).
  - intros Hempty. now apply applyUpdate_empty.
  - intros Hempty Hnd. unfold updated. rewrite (@applyUpdate_empty update group Hempty).
    assert (Hmap : map (fun g => if group_id g =? groupId then group else g) (groups db)
                   = groups db).
    { rewrite <- (map_id (groups db)) at 2. apply map_ext_in. intros g Hg.
      destruct (group_id g =? groupId) eqn:E; [|reflexivity].
      apply String.eqb_eq in E.
      apply (@unique_key_row Group GroupId group_id (groups db) group g Hnd Hin Hg). congruence. }
    rewrite Hmap. apply with_groups_same.
Qed.

Lemma updateGroup_repeated_witness :
  GroupRepository.updateGroup "g1" (GroupRepository.mkGroupUpdateDto undefined null undefined)
                              sampleDb
  = Resolved sampleGroup sampleDb.
Proof.
  destruct (@updateGroup_repeated sampleDb "g1"
              (GroupRepository.mkGroupUpdateDto undefined null undefined) sampleGroup eq_refl)
    as (updated & db' & Hrun & _ & Hsame & Hstore).
  assert (Hempty : emptyUpdate (GroupRepository.mkGroupUpdateDto undefined null undefined)).
  { repeat split; intros x; discriminate. }
  assert (Hnd : NoDup (map group_id (groups sampleDb))).
  { repeat constructor. intros []. }
  now rewrite Hrun, (Hsame Hempty), (Hstore Hempty Hnd).
Defined.
